(** * ai-agents-framework: tool memoisation, tracing and orchestration

    A shallow embedding of
    - [wrapToolWithTracing], [safeTraceOperation], [ensureTraceFlushed] and
      the two [createAgent] functions (core agent sources), and
    - [orchestrateAgents] (packages/stream/agents/orchestrator.ts),
    together with the fragment of JavaScript they rely on: truthiness,
    property access, [String(v)] and [JSON.stringify].

    Asynchronous code is modelled sequentially: every [await] in these
    functions waits for the awaited call to settle before the next
    statement runs, so a run is a state-passing computation that either
    returns or throws. Tool calls are taken one after the other. *)

From Stdlib Require Import ZArith Ascii String DecimalString DecimalPos DecimalZ.
From stdpp Require Import gmap strings list.

(* ===================================================================== *)
(** * Part I: definitions                                                 *)
(* ===================================================================== *)

(** ** JavaScript values *)

(** Values exchanged with tools and stages. Numbers are the integers, an
    object is its list of own properties in enumeration order. *)
#[warnings="-register-all"] Inductive JsValue : Type :=
| JUndefined
| JNull
| JBool (b : bool)
| JNum (z : Z)
| JStr (s : string)
| JArr (items : list JsValue)
| JObj (props : list (string * JsValue)).

(** A thrown value, kept as its message. *)
Definition JsError : Type := string.

(** Outcome of a call: it returns or it throws (a promise resolves or
    rejects). *)
Inductive Completion (A : Type) : Type :=
| Return (a : A)
| Throw (e : JsError).
Arguments Return {A} a.
Arguments Throw {A} e.

(** [ToBoolean]. *)
Definition truthy (v : JsValue) : bool :=
  match v with
  | JUndefined | JNull => false
  | JBool b => b
  | JNum z => negb (z =? 0)%Z
  | JStr s => negb (String.eqb s "")
  | JArr _ | JObj _ => true
  end.

(** [a || b]. *)
Definition js_or (a b : JsValue) : JsValue := if truthy a then a else b.

Fixpoint obj_get (k : string) (props : list (string * JsValue)) : JsValue :=
  match props with
  | [] => JUndefined
  | (k', v) :: rest => if String.eqb k k' then v else obj_get k rest
  end.

(** [o[k] = v] for a property name that is no array index: an existing
    property keeps its place, a new one is added last. *)
Fixpoint obj_set (k : string) (v : JsValue) (props : list (string * JsValue))
  : list (string * JsValue) :=
  match props with
  | [] => [(k, v)]
  | (k', v') :: rest =>
      if String.eqb k k' then (k, v) :: rest else (k', v') :: obj_set k v rest
  end.

(** [v?.k] for a property name that is no array index and no built-in
    member: objects answer with the property, every other value with
    [undefined]. *)
Definition opt_get (v : JsValue) (k : string) : JsValue :=
  match v with
  | JObj props => obj_get k props
  | _ => JUndefined
  end.

(** [v.k]: as [v?.k], but reading a property of [undefined] or [null]
    throws a TypeError. *)
Definition js_get (v : JsValue) (k : string) : Completion JsValue :=
  match v with
  | JUndefined | JNull => Throw "TypeError: cannot read properties"
  | _ => Return (opt_get v k)
  end.

(** [v?.[0]]. *)
Definition opt_first (v : JsValue) : JsValue :=
  match v with
  | JArr (x :: _) => x
  | JObj props => obj_get "0" props
  | JStr (String c _) => JStr (String c "")
  | _ => JUndefined
  end.

(** [a === b] against a string literal, as the [switch] on the action
    uses it. *)
Definition is_str (v : JsValue) (lit : string) : bool :=
  match v with
  | JStr s => String.eqb s lit
  | _ => false
  end.

(** ** Characters and decimal numerals *)

Definition DQ : ascii := Eval cbv in ascii_of_nat 34.
Definition BSL : ascii := Eval cbv in ascii_of_nat 92.

Definition chars (s : string) : list ascii := list_ascii_of_string s.

(** Decimal numeral of an integer, as [Number::toString] prints the
    integers below 10^21 in magnitude. *)
Definition digits (z : Z) : list ascii :=
  chars (NilEmpty.string_of_int (Z.to_int z)).

Definition is_numeral (c : ascii) : bool :=
  let n := N_of_ascii c in
  ((n =? 45) || ((48 <=? n) && (n <=? 57)))%N.

(** Longest prefix of numeral characters, and what follows it. *)
Fixpoint span_numeral (l : list ascii) : list ascii * list ascii :=
  match l with
  | c :: r =>
      if is_numeral c then let (n, r') := span_numeral r in (c :: n, r')
      else ([], l)
  | [] => ([], [])
  end.

Definition hex (n : N) : ascii :=
  ascii_of_N (if (n <? 10)%N then 48 + n else 87 + n).

Definition unhex (c : ascii) : N :=
  let n := N_of_ascii c in
  (if n <? 58 then n - 48 else n - 87)%N.

(** ** [JSON.stringify] *)

(** [QuoteJSONString] on one character: the quote, the backslash and the
    control characters are escaped. A string is read as UTF-8 text, whose
    bytes outside ASCII are written as they are. *)
Definition escape_char (c : ascii) : list ascii :=
  let n := N_of_ascii c in
  if (n =? 34)%N then [BSL; DQ]
  else if (n =? 92)%N then [BSL; BSL]
  else if (n =? 8)%N then [BSL; "b"%char]
  else if (n =? 12)%N then [BSL; "f"%char]
  else if (n =? 10)%N then [BSL; "n"%char]
  else if (n =? 13)%N then [BSL; "r"%char]
  else if (n =? 9)%N then [BSL; "t"%char]
  else if (n <? 32)%N then
    [BSL; "u"%char; "0"%char; "0"%char; hex (n / 16); hex (n mod 16)]
  else [c].

Fixpoint escape (s : list ascii) : list ascii :=
  match s with
  | [] => []
  | c :: r => escape_char c ++ escape r
  end.

Definition quote (s : string) : list ascii :=
  DQ :: escape (chars s) ++ [DQ].

(** Reads back one escaped character; used to show [escape] loses
    nothing. *)
Definition unescape_char (l : list ascii) : option (ascii * list ascii) :=
  match l with
  | [] => None
  | c :: r =>
      if Ascii.eqb c BSL then
        match r with
        | [] => None
        | e :: r' =>
            if Ascii.eqb e DQ then Some (DQ, r')
            else if Ascii.eqb e BSL then Some (BSL, r')
            else if Ascii.eqb e "b" then Some (ascii_of_N 8, r')
            else if Ascii.eqb e "f" then Some (ascii_of_N 12, r')
            else if Ascii.eqb e "n" then Some (ascii_of_N 10, r')
            else if Ascii.eqb e "r" then Some (ascii_of_N 13, r')
            else if Ascii.eqb e "t" then Some (ascii_of_N 9, r')
            else
              match r' with
              | _ :: _ :: h :: l :: r'' =>
                  Some (ascii_of_N (16 * unhex h + unhex l), r'')
              | _ => None
              end
        end
      else Some (c, r)
  end.

(** Serialisation of a value in property or element position. An
    [undefined] element of an array is written [null]; a property whose
    value is [undefined] is left out. *)
Fixpoint render (v : JsValue) : list ascii :=
  match v with
  | JUndefined => chars "null"
  | JNull => chars "null"
  | JBool b => chars (if b then "true" else "false")
  | JNum z => digits z
  | JStr s => quote s
  | JArr items =>
      let fix elems (l : list JsValue) : list ascii :=
        match l with
        | [] => []
        | [x] => render x
        | x :: r => render x ++ chars "," ++ elems r
        end in
      chars "[" ++ elems items ++ chars "]"
  | JObj props =>
      let fix members (first : bool) (l : list (string * JsValue)) : list ascii :=
        match l with
        | [] => []
        | (k, x) :: r =>
            match x with
            | JUndefined => members first r
            | _ =>
                (if first then [] else chars ",")
                  ++ quote k ++ chars ":" ++ render x ++ members false r
            end
        end in
      chars "{" ++ members true props ++ chars "}"
  end.

(** [JSON.stringify(v)]: a string, except for [undefined]. *)
Definition JSON_stringify (v : JsValue) : option string :=
  match v with
  | JUndefined => None
  | _ => Some (string_of_list_ascii (render v))
  end.

(** [JSON.stringify] of an object literal, which always is a string. *)
Definition JSON_stringify_object (props : list (string * JsValue)) : string :=
  string_of_list_ascii (render (JObj props)).

(** Values that JSON text can denote: no [undefined] anywhere. *)
Fixpoint is_json (v : JsValue) : bool :=
  match v with
  | JUndefined => false
  | JArr items => forallb is_json items
  | JObj props => forallb (fun kv => is_json (snd kv)) props
  | _ => true
  end.

(** The elements of an array and the members of an object as [render]
    lays them out. *)
Fixpoint render_elems (l : list JsValue) : list ascii :=
  match l with
  | [] => []
  | [x] => render x
  | x :: r => render x ++ chars "," ++ render_elems r
  end.

Definition elems_tail (l : list JsValue) : list ascii :=
  match l with
  | [] => []
  | _ => chars "," ++ render_elems l
  end.

Fixpoint render_members (first : bool) (l : list (string * JsValue))
  : list ascii :=
  match l with
  | [] => []
  | (k, x) :: r =>
      match x with
      | JUndefined => render_members first r
      | _ =>
          (if first then [] else chars ",")
            ++ quote k ++ chars ":" ++ render x ++ render_members false r
      end
  end.

(** What may follow a rendered value: nothing that would extend a
    numeral. *)
Definition rest_ok (r : list ascii) : bool :=
  match r with
  | [] => true
  | c :: _ => negb (is_numeral c)
  end.

(** The kind of value a first character announces, and the kind of a
    value: 1 null, 2 boolean, 3 number, 4 string, 5 array, 6 object. *)
Definition char_kind (c : ascii) : nat :=
  if is_numeral c then 3
  else if Ascii.eqb c "n" then 1
  else if Ascii.eqb c "t" || Ascii.eqb c "f" then 2
  else if Ascii.eqb c DQ then 4
  else if Ascii.eqb c "[" then 5
  else if Ascii.eqb c "{" then 6
  else 0.

Definition value_kind (v : JsValue) : nat :=
  match v with
  | JUndefined | JNull => 1
  | JBool _ => 2
  | JNum _ => 3
  | JStr _ => 4
  | JArr _ => 5
  | JObj _ => 6
  end.

(** A rendered value can be read back from whatever follows it. *)
Definition separable (v : JsValue) : Prop :=
  forall v2 r1 r2,
    is_json v = true -> is_json v2 = true ->
    rest_ok r1 = true -> rest_ok r2 = true ->
    render v ++ r1 = render v2 ++ r2 -> v = v2 /\ r1 = r2.

(** [String(v)], as a template literal applies it. *)
Fixpoint js_to_string (v : JsValue) : string :=
  match v with
  | JUndefined => "undefined"
  | JNull => "null"
  | JBool b => if b then "true" else "false"
  | JNum z => string_of_list_ascii (digits z)
  | JStr s => s
  | JArr items =>
      let fix joined (l : list JsValue) : string :=
        match l with
        | [] => ""
        | x :: r =>
            let sx := match x with
                      | JUndefined | JNull => ""
                      | _ => js_to_string x
                      end in
            match r with
            | [] => sx
            | _ => sx +:+ "," +:+ joined r
            end
        end in
      joined items
  | JObj _ => "[object Object]"
  end.

(** ** Computations that keep a state and may throw *)

Definition M (S A : Type) : Type := S -> S * Completion A.

Definition ret {S A} (a : A) : M S A := fun s => (s, Return a).

Definition throw {S A} (e : JsError) : M S A := fun s => (s, Throw e).

Definition bind {S A B} (m : M S A) (k : A -> M S B) : M S B :=
  fun s =>
    match m s with
    | (s', Return a) => k a s'
    | (s', Throw e) => (s', Throw e)
    end.

(** [try { m } catch (error) { handler }]. *)
Definition try_catch {S A} (m : M S A) (handler : JsError -> M S A) : M S A :=
  fun s =>
    match m s with
    | (s', Return a) => (s', Return a)
    | (s', Throw e) => handler e s'
    end.

(** [try { m } finally { cleanup }]: the cleanup runs on both exits and
    its own exception, if any, replaces the outcome. *)
Definition try_finally {S A} (m : M S A) (cleanup : M S unit) : M S A :=
  fun s =>
    match m s with
    | (s', c) =>
        match cleanup s' with
        | (s'', Return _) => (s'', c)
        | (s'', Throw e) => (s'', Throw e)
        end
    end.

Declare Scope js_scope.
Delimit Scope js_scope with js.
Notation "x <- m ;; k" := (bind m (fun x => k))
  (at level 100, m at next level, right associativity) : js_scope.
Notation "m ;; k" := (bind m (fun _ => k))
  (at level 100, right associativity) : js_scope.
Open Scope js_scope.

(** [for (const x of l) { body(x) }], stopping at the first exception. *)
Fixpoint for_each {S A} (l : list A) (body : A -> M S unit) : M S unit :=
  match l with
  | [] => ret tt
  | x :: r => body x ;; for_each r body
  end.

(** ** Tools, the trace backend and the observable world *)

(** One call of a tool's own [execute]. *)
Record Invocation : Type := { inv_tool : string; inv_args : JsValue }.

(** A configured tool. What [execute] does may depend on the calls made
    before it in the run, which covers tools that keep state. *)
Record Tool : Type := {
  description : string;
  execute : list Invocation -> JsValue -> Completion JsValue
}.

(** The methods of the trace backend the agent code calls. *)
Inductive TraceCall : Type :=
| CallTrace (name : string)
| CallSpan (name : string) (payload : JsValue)
| CallSpanEnd (output : JsValue)
| CallGeneration (name : string) (input : JsValue)
| CallGenerationUpdate (output : JsValue)
| CallUpdate (output : JsValue)
| CallLangfuseFlush
| CallTraceFlush.

(** A trace client; [has_flushAsync] is ['flushAsync' in trace]. *)
Record TraceClient : Type := { has_flushAsync : bool }.

(** The backend decides, from the calls it has seen so far, whether a
    call throws, and hands out the client of a newly created trace. *)
Record Backend : Type := {
  throws : list TraceCall -> TraceCall -> option JsError;
  new_trace : TraceClient
}.

(** What a run can be observed to do: the tool-result cache of the
    current agent call, the calls of tools' own [execute], the calls made
    on the backend, and the console lines. *)
Record World : Type := {
  toolResultCache : gmap string JsValue;
  invoked : list Invocation;
  traced : list TraceCall;
  console : list string
}.

Definition empty_world : World :=
  {| toolResultCache := ∅; invoked := []; traced := []; console := [] |}.

Definition set_cache (c : gmap string JsValue) (w : World) : World :=
  {| toolResultCache := c; invoked := invoked w;
     traced := traced w; console := console w |}.

Definition add_invocation (i : Invocation) (w : World) : World :=
  {| toolResultCache := toolResultCache w; invoked := invoked w ++ [i];
     traced := traced w; console := console w |}.

Definition add_traced (c : TraceCall) (w : World) : World :=
  {| toolResultCache := toolResultCache w; invoked := invoked w;
     traced := traced w ++ [c]; console := console w |}.

Definition add_console (line : string) (w : World) : World :=
  {| toolResultCache := toolResultCache w; invoked := invoked w;
     traced := traced w; console := console w ++ [line] |}.

(** A state that holds the world, possibly next to the local variables
    of the function being run. *)
Class HasWorld (S : Type) : Type := {
  the_world : S -> World;
  with_world : World -> S -> S
}.

#[global] Instance world_itself : HasWorld World :=
  {| the_world w := w; with_world w _ := w |}.

#[global] Instance world_and_local (L : Type) : HasWorld (World * L) :=
  {| the_world s := fst s; with_world w s := (w, snd s) |}.

Definition modify_world {S} `{HasWorld S} (f : World -> World) : M S unit :=
  fun s => (with_world (f (the_world s)) s, Return tt).

Definition console_warn {S} `{HasWorld S} (line : string) : M S unit :=
  modify_world (add_console line).

(** A call on the trace backend: it is recorded, then throws or not. *)
Definition backend_call {S} `{HasWorld S} (backend : Backend) (c : TraceCall)
  : M S unit :=
  fun s =>
    let w := the_world s in
    let s' := with_world (add_traced c w) s in
    match throws backend (traced w) c with
    | Some e => (s', Throw e)
    | None => (s', Return tt)
    end.

(** [tool.execute(args, options)] on the tool as configured. *)
Definition tool_execute {S} `{HasWorld S} (toolName : string) (tool : Tool)
    (args : JsValue) : M S JsValue :=
  fun s =>
    let w := the_world s in
    (with_world (add_invocation {| inv_tool := toolName; inv_args := args |} w) s,
     execute tool (invoked w) args).

(** [toolResultCache.set(key, value)]. *)
Definition cache_set {S} `{HasWorld S} (key : string) (value : JsValue)
  : M S unit :=
  modify_world (fun w => set_cache (<[key := value]> (toolResultCache w)) w).

(** ** safeTraceOperation and ensureTraceFlushed *)

Definition safeTraceOperation {S} `{HasWorld S} {A} (operation : M S A)
    (errorMessage : string) (defaultValue : option A) : M S (option A) :=
  try_catch
    (a <- operation ;; ret (Some a))
    (fun error => console_warn (errorMessage +:+ " " +:+ error) ;; ret defaultValue).

Definition ensureTraceFlushed (backend : Backend) (langfuse : bool)
    (trace : option TraceClient) : M World unit :=
  if negb langfuse && negb (bool_decide (is_Some trace)) then ret tt
  else
    (if langfuse then
       safeTraceOperation (backend_call backend CallLangfuseFlush)
         "Failed to flush Langfuse instance" None ;; ret tt
     else ret tt) ;;
    (match trace with
     | Some t =>
         if has_flushAsync t then
           safeTraceOperation (backend_call backend CallTraceFlush)
             "Failed to flush trace" None ;; ret tt
         else ret tt
     | None => ret tt
     end).

(** ** wrapToolWithTracing *)

(** The cache key, [JSON.stringify({ toolName, args })]. *)
Definition cacheKey (toolName : string) (args : JsValue) : string :=
  JSON_stringify_object [("toolName", JStr toolName); ("args", args)].

(** [result = v] on the local variable of the wrapped [execute]. *)
Definition assign_result (v : JsValue) : M (World * JsValue) unit :=
  fun s => ((fst s, v), Return tt).

(** The [execute] of the wrapped tool. The local [result] starts
    [undefined], is assigned inside the traced operation, and is what the
    function returns after [safeTraceOperation] has settled. *)
Definition wrapToolWithTracing (backend : Backend) (toolName : string)
    (tool : Tool) (trace : option TraceClient) (args : JsValue)
  : M World JsValue :=
  fun w =>
    let key := cacheKey toolName args in
    match toolResultCache w !! key with
    | Some cached =>
        (add_console ("Using cached result for " +:+ toolName) w, Return cached)
    | None =>
        let traced_operation : M (World * JsValue) JsValue :=
          match trace with
          | None => ret JUndefined
          | Some _ =>
              backend_call backend
                (CallSpan ("tool-execution-" +:+ toolName) args) ;;
              try_catch
                (r <- tool_execute toolName tool args ;;
                 assign_result r ;;
                 cache_set key r ;;
                 backend_call backend
                   (CallSpan ("tool-execution-" +:+ toolName +:+ "-complete") r) ;;
                 ret r)
                (fun error =>
                   backend_call backend
                     (CallSpan ("tool-execution-" +:+ toolName +:+ "-error")
                        (JStr error)) ;;
                   throw error)
          end in
        match safeTraceOperation traced_operation
                ("Failed to trace tool execution for " +:+ toolName) None
                (w, JUndefined) with
        | ((w', result), _) => (w', Return result)
        end
    end.

(** ** The generation engine *)

Record ToolCall : Type := {
  toolName : string;
  args : JsValue;
  output : option JsValue
}.

(** What [generateText] resolves to, as far as the agent reads it. *)
Record GenResult : Type := { text : string; toolCalls : list ToolCall }.

(** The engine is a black box that, for a request, follows some strategy:
    it ends with a result, fails, or calls a tool and goes on from what
    the tool's [execute] returned or threw. *)
Inductive Engine : Type :=
| Finish (result : GenResult)
| Reject (e : JsError)
| CallTool (name : string) (arguments : JsValue)
           (next : Completion JsValue -> Engine).

Inductive ToolChoice : Type := ChoiceRequired | ChoiceAuto | ChoiceNone.

(** A chat message, [{ role, content, id? }]. *)
Record AgentMessage : Type := {
  role : string;
  content : string;
  id : option string
}.

(** The options [generateText] is called with. *)
Record GenRequest : Type := {
  req_model : string;
  req_system : option string;
  req_prompt : option string;
  req_messages : list AgentMessage;
  req_tools : option (list string);
  req_toolChoice : ToolChoice;
  req_maxSteps : nat;
  req_telemetry : bool
}.

(** A tool as handed to the engine: its [execute]. *)
Definition ToolFn : Type := JsValue -> M World JsValue.

Fixpoint find_tool (name : string) (tools : list (string * ToolFn))
  : option ToolFn :=
  match tools with
  | [] => None
  | (n, f) :: rest => if String.eqb name n then Some f else find_tool name rest
  end.

(** The engine run against the tools it was given. A call of a tool that
    is not among them is answered with an error, without running
    anything. *)
Fixpoint run_engine (tools : list (string * ToolFn)) (e : Engine)
  : M World GenResult :=
  match e with
  | Finish result => ret result
  | Reject err => throw err
  | CallTool name arguments next =>
      fun w =>
        match find_tool name tools with
        | Some f =>
            match f arguments w with
            | (w', outcome) => run_engine tools (next outcome) w'
            end
        | None => run_engine tools (next (Throw "NoSuchToolError")) w
        end
  end.

(** ** Agent configuration and response *)

Record AgentConfig : Type := {
  name : string;
  trace : option TraceClient;
  createNewTrace : bool;
  langfuse : bool;
  isServerless : bool
}.

Record AgentOptions : Type := {
  maxSteps : option nat;
  systemPrompt : string;
  tools : option (list (string * Tool));
  modelId : string;
  requireStructuredOutput : bool;
  messages : option (list AgentMessage)
}.

Inductive MessageContent : Type :=
| TextContent (text : string)
| ToolCallContent (toolName : string) (args : JsValue) (toolResults : JsValue).

Record Message : Type := {
  msg_role : string;
  msg_content : list MessageContent
}.

(** The two shapes of the value an agent call returns:
    [{ toolCalls, structuredOutput }] and [{ messages, toolResults }]
    (the second source file returns [{ messages }] alone). *)
Inductive AgentResponse : Type :=
| StructuredResponse (toolCalls : list ToolCall) (structuredOutput : JsValue)
| UnstructuredResponse (messages : list Message)
                       (toolResults : option (list (string * JsValue))).

(** [options.maxSteps || 3]. *)
Definition maxSteps_or_3 (m : option nat) : nat :=
  match m with
  | Some (S n) => S n
  | _ => 3
  end.

Definition toolChoice_of (wrappedTools : bool) (structured : bool) : ToolChoice :=
  if wrappedTools then (if structured then ChoiceRequired else ChoiceAuto)
  else ChoiceNone.

(** The tools handed to the engine: wrapped when there are tools and a
    trace, as configured otherwise. *)
Definition wrappedTools (backend : Backend)
    (tools : option (list (string * Tool))) (trace : option TraceClient)
  : list (string * ToolFn) :=
  match tools with
  | None => []
  | Some entries =>
      match trace with
      | Some _ =>
          map (fun '(name, tool) =>
                 (name, wrapToolWithTracing backend name tool trace)) entries
      | None =>
          map (fun '(name, tool) => (name, tool_execute name tool)) entries
      end
  end.

(** The trace the agent works with: a new one when a Langfuse client is
    configured and no trace was supplied or a new one is asked for, if
    creating it succeeds; the supplied one otherwise. *)
Definition obtain_trace (backend : Backend) (config : AgentConfig)
  : M World (option TraceClient) :=
  if langfuse config
     && (negb (bool_decide (is_Some (trace config))) || createNewTrace config)
  then
    newTrace <- safeTraceOperation
                  (backend_call backend (CallTrace (name config +:+ "-trace")) ;;
                   ret (new_trace backend))
                  "Failed to create Langfuse trace" None ;;
    ret (match newTrace with
         | Some t => Some t
         | None => trace config
         end)
  else ret (trace config).

Definition when {S} (b : bool) (m : M S unit) : M S unit :=
  if b then m else ret tt.

Definition has_trace (t : option TraceClient) : bool :=
  bool_decide (is_Some t).

(** The [finally] block shared by both agents. *)
Definition flush_on_exit (backend : Backend) (config : AgentConfig)
    (t : option TraceClient) : M World unit :=
  when (isServerless config || (createNewTrace config && langfuse config))
    (ensureTraceFlushed backend (langfuse config) t).

(** The [catch] block shared by both agents. *)
Definition log_agent_error (backend : Backend) (config : AgentConfig)
    (t : option TraceClient) (error : JsError) : M World AgentResponse :=
  when (has_trace t)
    (safeTraceOperation
       (backend_call backend
          (CallSpan (name config +:+ "-agent-error") (JStr error)))
       "Failed to log agent error" None ;; ret tt) ;;
  throw error.

(** The record the calls are reduced to: [Object.assign(acc,
    { [call.toolName]: call.args })] for each call in turn. *)
Definition record_of (calls : list ToolCall) (acc : list (string * JsValue))
  : list (string * JsValue) :=
  fold_left (fun acc call => obj_set (toolName call) (args call) acc) calls acc.

(** ** createAgent, first source file *)

Module Part006.

Definition request (config : AgentConfig) (options : AgentOptions)
    (userPrompt : string) (t : option TraceClient) : GenRequest :=
  {| req_model := modelId options;
     req_system := None;
     req_prompt := Some userPrompt;
     req_messages := [];
     req_tools := option_map (map fst) (tools options);
     req_toolChoice :=
       toolChoice_of (bool_decide (is_Some (tools options)))
         (requireStructuredOutput options);
     req_maxSteps := maxSteps_or_3 (maxSteps options);
     req_telemetry := has_trace t |}.

(** The value returned: [structuredOutput] is [result.text]; in the other
    mode every tool call is listed with its arguments as [toolResults],
    and [toolResults] maps each tool name to the arguments of its call. *)
Definition format_response (options : AgentOptions) (result : GenResult)
  : AgentResponse :=
  if requireStructuredOutput options then
    StructuredResponse (toolCalls result) (JStr (text result))
  else
    UnstructuredResponse
      [ {| msg_role := "assistant";
           msg_content :=
             TextContent (text result)
               :: map (fun toolCall =>
                         ToolCallContent (toolName toolCall) (args toolCall)
                           (args toolCall))
                    (toolCalls result) |} ]
      (Some (record_of (toolCalls result) [])).

Definition log_tool_call (backend : Backend) (toolCall : ToolCall)
  : M World unit :=
  safeTraceOperation
    (backend_call backend
       (CallGeneration ("tool-call-" +:+ toolName toolCall) (args toolCall)) ;;
     match output toolCall with
     | Some out => backend_call backend (CallGenerationUpdate out)
     | None => ret tt
     end)
    ("Failed to log tool call for " +:+ toolName toolCall) None ;;
  ret tt.

(** Everything before the [try]: the fresh cache, the trace, the start
    span. *)
Definition start_trace (backend : Backend) (config : AgentConfig)
    (userPrompt : string) : M World (option TraceClient) :=
  modify_world (set_cache ∅) ;;
  t <- obtain_trace backend config ;;
  when (has_trace t)
    (safeTraceOperation
       (backend_call backend
          (CallSpan (name config +:+ "-agent-start") (JStr userPrompt)))
       "Failed to create agent start span" None ;; ret tt) ;;
  ret t.

(** [await generateText({ ...options, tools: wrappedTools, ... })]. *)
Definition generate (backend : Backend) (generateText : GenRequest -> Engine)
    (config : AgentConfig) (options : AgentOptions) (userPrompt : string)
    (t : option TraceClient) : M World GenResult :=
  run_engine (wrappedTools backend (tools options) t)
    (generateText (request config options userPrompt t)).

(** What follows [generateText] inside the [try]. *)
Definition finish (backend : Backend) (config : AgentConfig)
    (options : AgentOptions) (t : option TraceClient) (result : GenResult)
  : M World AgentResponse :=
  when (has_trace t) (for_each (toolCalls result) (log_tool_call backend)) ;;
  let response := format_response options result in
  when (has_trace t)
    (safeTraceOperation
       (backend_call backend
          (CallSpan (name config +:+ "-agent-complete") (JStr (text result))) ;;
        backend_call backend (CallUpdate (JStr (text result))))
       "Failed to log agent completion" None ;; ret tt) ;;
  ret response.

Definition createAgent (backend : Backend) (generateText : GenRequest -> Engine)
    (config : AgentConfig) (options : AgentOptions) (userPrompt : string)
  : M World AgentResponse :=
  t <- start_trace backend config userPrompt ;;
  try_finally
    (try_catch
       (result <- generate backend generateText config options userPrompt t ;;
        finish backend config options t result)
       (log_agent_error backend config t))
    (flush_on_exit backend config t).

(** The agent up to the point where [generateText] has settled. *)
Definition generated (backend : Backend) (generateText : GenRequest -> Engine)
    (config : AgentConfig) (options : AgentOptions) (userPrompt : string)
  : M World GenResult :=
  t <- start_trace backend config userPrompt ;;
  generate backend generateText config options userPrompt t.

End Part006.

(** ** createAgent, second source file *)

Module Part007.

Definition request (config : AgentConfig) (options : AgentOptions)
    (userPrompt : string) (t : option TraceClient) : GenRequest :=
  {| req_model := modelId options;
     req_system := Some (systemPrompt options);
     req_prompt := None;
     req_messages :=
       match messages options with
       | Some ms => ms ++ [ {| role := "user"; content := userPrompt; id := None |} ]
       | None => [ {| role := "user"; content := userPrompt; id := None |} ]
       end;
     req_tools := option_map (map fst) (tools options);
     req_toolChoice :=
       toolChoice_of (bool_decide (is_Some (tools options)))
         (requireStructuredOutput options);
     req_maxSteps := maxSteps_or_3 (maxSteps options);
     req_telemetry := has_trace t |}.

(** [toolResultCache.get(JSON.stringify({ toolName, args }))]. *)
Definition cached_result (cache : gmap string JsValue) (toolCall : ToolCall)
  : JsValue :=
  default JUndefined (cache !! cacheKey (toolName toolCall) (args toolCall)).

Definition format_response (options : AgentOptions) (result : GenResult)
    (cache : gmap string JsValue) : AgentResponse :=
  if requireStructuredOutput options then
    StructuredResponse (toolCalls result) (JStr (text result))
  else
    UnstructuredResponse
      [ {| msg_role := "assistant";
           msg_content :=
             TextContent (text result)
               :: map (fun toolCall =>
                         ToolCallContent (toolName toolCall) (args toolCall)
                           (cached_result cache toolCall))
                    (toolCalls result) |} ]
      None.

(** The loop over [result.toolCalls]; its backend calls are not guarded
    by [safeTraceOperation]. *)
Definition log_tool_call (backend : Backend) (toolCall : ToolCall)
  : M World unit :=
  backend_call backend
    (CallGeneration ("tool-call-" +:+ toolName toolCall) (args toolCall)) ;;
  backend_call backend
    (CallSpan ("tool-execution-" +:+ toolName toolCall) (args toolCall)) ;;
  fun w =>
    let toolResult := cached_result (toolResultCache w) toolCall in
    (if truthy toolResult then
       backend_call backend (CallGenerationUpdate toolResult) ;;
       backend_call backend (CallSpanEnd toolResult)
     else ret tt) w.

Definition start_trace (backend : Backend) (config : AgentConfig)
    (userPrompt : string) : M World (option TraceClient) :=
  modify_world (set_cache ∅) ;;
  t <- obtain_trace backend config ;;
  when (has_trace t)
    (safeTraceOperation
       (backend_call backend
          (CallGeneration "initial-prompt" (JStr userPrompt)) ;;
        backend_call backend
          (CallSpan (name config +:+ "-agent-execution") (JStr userPrompt)))
       "Failed to create agent spans" None ;; ret tt) ;;
  ret t.

Definition generate (backend : Backend) (generateText : GenRequest -> Engine)
    (config : AgentConfig) (options : AgentOptions) (userPrompt : string)
    (t : option TraceClient) : M World GenResult :=
  run_engine (wrappedTools backend (tools options) t)
    (generateText (request config options userPrompt t)).

(** What follows [generateText] inside the [try]; none of these backend
    calls goes through [safeTraceOperation]. *)
Definition finish (backend : Backend) (config : AgentConfig)
    (options : AgentOptions) (t : option TraceClient) (result : GenResult)
  : M World AgentResponse :=
  when (has_trace t) (for_each (toolCalls result) (log_tool_call backend)) ;;
  when (has_trace t)
    (backend_call backend
       (CallGeneration "final-response" (JStr (text result)))) ;;
  fun w =>
    let response := format_response options result (toolResultCache w) in
    (when (has_trace t)
       (backend_call backend (CallUpdate (JStr (text result)))) ;;
     ret response) w.

Definition createAgent (backend : Backend) (generateText : GenRequest -> Engine)
    (config : AgentConfig) (options : AgentOptions) (userPrompt : string)
  : M World AgentResponse :=
  t <- start_trace backend config userPrompt ;;
  try_finally
    (try_catch
       (result <- generate backend generateText config options userPrompt t ;;
        finish backend config options t result)
       (log_agent_error backend config t))
    (flush_on_exit backend config t).

(** The agent up to the point where [generateText] has settled. *)
Definition generated (backend : Backend) (generateText : GenRequest -> Engine)
    (config : AgentConfig) (options : AgentOptions) (userPrompt : string)
  : M World GenResult :=
  t <- start_trace backend config userPrompt ;;
  generate backend generateText config options userPrompt t.

End Part007.

(** ** orchestrateAgents *)

Inductive Stage : Type := Router | Research | Strategy | Formatter | Publisher.

(** What a streaming stage agent resolves to: the text chunks, whether
    reading the stream ends in an exception, and the promise of the tool
    results. *)
Record StreamResult : Type := {
  textStream : list string;
  textStreamError : option JsError;
  toolResults : Completion JsValue
}.

Definition StageAgent : Type := list AgentMessage -> Completion StreamResult.

(** The five stage agents the orchestrator imports. *)
Record Agents : Type := {
  routerAgent : StageAgent;
  researchAgent : StageAgent;
  strategyAgent : StageAgent;
  formatterAgent : StageAgent;
  publisherAgent : StageAgent
}.

(** The stage calls made so far, oldest first, each with the messages it
    was given. Console output is left out. *)
Definition Trail : Type := list (Stage * list AgentMessage).

Record OrchestrationResult : Type := {
  action : JsValue;
  platform : JsValue;
  references : option JsValue;
  strategy : option JsValue;
  formattedContent : option JsValue;
  publishedContent : option JsValue
}.

Definition user_message (text : string) (n : string) : AgentMessage :=
  {| role := "user"; content := text; id := Some n |}.

(** [await agent(messages)], then the [for await] over the text stream,
    then [await result.toolResults]. *)
Definition run_stage (stage : Stage) (agent : StageAgent)
    (input : list AgentMessage) : M Trail JsValue :=
  streamed <- (fun trail => (trail ++ [(stage, input)], agent input)) ;;
  match textStreamError streamed with
  | Some e => throw e
  | None => fun trail => (trail, toolResults streamed)
  end.

(** [toolResults?.[0]?.result]. *)
Definition first_result (results : JsValue) : JsValue :=
  opt_get (opt_first results) "result".

Definition default_route : JsValue :=
  JObj [("action", JStr "create_content"); ("platform", JStr "blog")].

(** [routerToolResults?.[0]?.result || { action: "create_content",
    platform: "blog" }]. *)
Definition select_route (routerToolResults : JsValue) : JsValue :=
  js_or (first_result routerToolResults) default_route.

Definition member {S} (v : JsValue) (k : string) : M S JsValue :=
  fun s => (s, js_get v k).

(** The message the formatter stage is given. *)
Definition formatter_input (userInput : string) (route_platform : JsValue)
    (strategy_result : JsValue) : list AgentMessage :=
  [ user_message
      (JSON_stringify_object
         [ ("content", JStr userInput);
           ("platform", route_platform);
           ("tone", js_or (opt_get strategy_result "tone") (JStr "professional")) ])
      "4" ].

Definition publisher_input (route_platform : JsValue) (formatted : JsValue)
  : list AgentMessage :=
  [ user_message
      (JSON_stringify_object
         [ ("content", opt_get formatted "formattedContent");
           ("metadata", opt_get formatted "metadata");
           ("platform", route_platform) ])
      "5" ].

(** The [create_content] case: research, strategy, formatter, publisher. *)
Definition create_content (agents : Agents) (userInput : string)
    (route : JsValue) (result : OrchestrationResult)
  : M Trail OrchestrationResult :=
  researchToolResults <-
    run_stage Research (researchAgent agents)
      [ user_message ("Research this topic: " +:+ userInput) "2" ] ;;
  let refs := first_result researchToolResults in
  route_platform <- member route "platform" ;;
  strategyToolResults <-
    run_stage Strategy (strategyAgent agents)
      [ user_message
          ("Create a strategy for " +:+ js_to_string route_platform
             +:+ " about: " +:+ userInput) "3" ] ;;
  let strat := first_result strategyToolResults in
  formatterToolResults <-
    run_stage Formatter (formatterAgent agents)
      (formatter_input userInput route_platform strat) ;;
  let formatted := first_result formatterToolResults in
  publisherToolResults <-
    run_stage Publisher (publisherAgent agents)
      (publisher_input route_platform formatted) ;;
  ret {| action := action result;
         platform := platform result;
         references := Some refs;
         strategy := Some strat;
         formattedContent := Some formatted;
         publishedContent := Some (first_result publisherToolResults) |}.

(** The [create_strategy] case: the strategy stage alone. *)
Definition create_strategy (agents : Agents) (route : JsValue)
    (result : OrchestrationResult) : M Trail OrchestrationResult :=
  route_platform <- member route "platform" ;;
  strategyToolResults <-
    run_stage Strategy (strategyAgent agents)
      [ user_message
          ("Create a content strategy for " +:+ js_to_string route_platform)
          "6" ] ;;
  ret {| action := action result;
         platform := platform result;
         references := references result;
         strategy := Some (first_result strategyToolResults);
         formattedContent := formattedContent result;
         publishedContent := publishedContent result |}.

Definition manage_content (result : OrchestrationResult) : OrchestrationResult :=
  {| action := action result;
     platform := platform result;
     references := references result;
     strategy :=
       Some (JObj [("message",
                    JStr "Content management workflow not implemented yet")]);
     formattedContent := formattedContent result;
     publishedContent := publishedContent result |}.

(** [orchestrateAgents(userInput)]. The [catch] blocks of the source log
    and re-throw, which leaves the outcome as it is. *)
Definition orchestrateAgents (agents : Agents) (userInput : string)
  : M Trail OrchestrationResult :=
  routerToolResults <-
    run_stage Router (routerAgent agents) [ user_message userInput "1" ] ;;
  let route := select_route routerToolResults in
  route_action <- member route "action" ;;
  route_platform <- member route "platform" ;;
  let result :=
    {| action := route_action;
       platform := route_platform;
       references := None;
       strategy := None;
       formattedContent := None;
       publishedContent := None |} in
  if is_str route_action "create_content" then
    create_content agents userInput route result
  else if is_str route_action "create_strategy" then
    create_strategy agents route result
  else if is_str route_action "manage_content" then
    ret (manage_content result)
  else ret result.

(** ** Notions used in the statements *)

(** The cache key an invocation is stored under. *)
Definition invocation_key (i : Invocation) : string :=
  cacheKey (inv_tool i) (inv_args i).

(** The configured tool of a given name. *)
Fixpoint find_entry (n : string) (entries : list (string * Tool)) : option Tool :=
  match entries with
  | [] => None
  | (n', tool) :: rest => if String.eqb n n' then Some tool else find_entry n rest
  end.

(** The same configuration with no sink: neither a trace nor a Langfuse
    client. *)
Definition detach (config : AgentConfig) : AgentConfig :=
  {| name := name config;
     trace := None;
     createNewTrace := createNewTrace config;
     langfuse := false;
     isServerless := isServerless config |}.

(** [m] may call the backend and write to the console, and may throw, but
    leaves the tool log and the cache alone. *)
Definition tracing_only {A} (m : M World A) : Prop :=
  forall w,
    invoked (m w).1 = invoked w /\ toolResultCache (m w).1 = toolResultCache w.

(** [m] is tracing only and returns, with a value satisfying [Q]. *)
Definition observes {A} (m : M World A) (Q : A -> Prop) : Prop :=
  forall w, exists w' a,
    m w = (w', Return a) /\ Q a
    /\ invoked w' = invoked w /\ toolResultCache w' = toolResultCache w.

(** The stage resolves, its text stream can be read to the end, and its
    tool results arrive as [results]. *)
Definition stage_yields (agent : StageAgent) (input : list AgentMessage)
    (results : JsValue) : Prop :=
  exists streamed,
    agent input = Return streamed
    /\ textStreamError streamed = None
    /\ toolResults streamed = Return results.

Definition stage_succeeds (agent : StageAgent) : Prop :=
  forall input, exists results, stage_yields agent input results.

(** ** Sample inputs *)

Definition quiet_backend : Backend :=
  {| throws := fun _ _ => None; new_trace := {| has_flushAsync := false |} |}.

(** A backend double that throws from every method. *)
Definition broken_backend : Backend :=
  {| throws := fun _ _ => Some "backend unavailable";
     new_trace := {| has_flushAsync := false |} |}.

Definition client : TraceClient := {| has_flushAsync := true |}.

Definition echo_tool : Tool :=
  {| description := "Return the arguments"; execute := fun _ a => Return a |}.

(** The tool of the repository's examples that fails on request. *)
Definition unreliable_tool : Tool :=
  {| description := "A tool that might fail";
     execute := fun _ a =>
       if truthy (opt_get a "shouldFail") then Throw "Tool failed as requested"
       else Return (JObj [("success", JBool true)]) |}.

Definition should_fail : JsValue := JObj [("shouldFail", JBool true)].

Definition call (n : string) (a : JsValue) : ToolCall :=
  {| toolName := n; args := a; output := None |}.

Definition report (o : Completion JsValue) : string :=
  match o with
  | Return v => js_to_string v
  | Throw e => e
  end.

(** An engine that calls one tool and answers with what it got back. *)
Definition once (n : string) (a : JsValue) : Engine :=
  CallTool n a (fun o => Finish {| text := report o; toolCalls := [call n a] |}).

(** An engine that makes the same call twice. *)
Definition twice (n : string) (a : JsValue) : Engine :=
  CallTool n a (fun _ => once n a).

Definition sample_config (t : option TraceClient) : AgentConfig :=
  {| name := "agent"; trace := t; createNewTrace := false;
     langfuse := false; isServerless := false |}.

Definition sample_options (structured : bool) (entries : list (string * Tool))
  : AgentOptions :=
  {| maxSteps := None;
     systemPrompt := "You are a helpful assistant";
     tools := Some entries;
     modelId := "gpt-4o-mini";
     requireStructuredOutput := structured;
     messages := None |}.

Definition both_tools : list (string * Tool) :=
  [("echo", echo_tool); ("unreliable", unreliable_tool)].

Definition args_ab : JsValue := JObj [("a", JNum 1); ("b", JNum 2)].
Definition args_ba : JsValue := JObj [("b", JNum 2); ("a", JNum 1)].

Definition stage_returning (results : JsValue) : StageAgent :=
  fun _ => Return {| textStream := []; textStreamError := None;
                     toolResults := Return results |}.

(** Tool results holding one result. *)
Definition tool_result (v : JsValue) : JsValue := JArr [JObj [("result", v)]].

Definition sample_agents (router_results strategy_results : JsValue) : Agents :=
  {| routerAgent := stage_returning router_results;
     researchAgent :=
       stage_returning (tool_result (JObj [("references", JArr [])]));
     strategyAgent := stage_returning strategy_results;
     formatterAgent :=
       stage_returning (tool_result (JObj [("formattedContent", JStr "post")]));
     publisherAgent :=
       stage_returning (tool_result (JObj [("status", JStr "published")])) |}.


(** ** The JSON image of a value *)

(** What [JSON.parse(JSON.stringify(v))] gives back: [undefined] elements
    of an array become [null], properties whose value is [undefined]
    disappear. *)
Fixpoint json_image (v : JsValue) : JsValue :=
  match v with
  | JUndefined => JNull
  | JArr items => JArr (map json_image items)
  | JObj props =>
      let fix kept (l : list (string * JsValue)) : list (string * JsValue) :=
        match l with
        | [] => []
        | (k, x) :: r =>
            match x with
            | JUndefined => kept r
            | _ => (k, json_image x) :: kept r
            end
        end in
      JObj (kept props)
  | _ => v
  end.

(** The properties of an object that its JSON image keeps. *)
Fixpoint kept_props (l : list (string * JsValue)) : list (string * JsValue) :=
  match l with
  | [] => []
  | (k, x) :: r =>
      match x with
      | JUndefined => kept_props r
      | _ => (k, json_image x) :: kept_props r
      end
  end.

(** ** More notions used in the statements *)

(** The backend calls [ensureTraceFlushed] makes, in order. *)
Definition flush_calls (langfuse : bool) (t : option TraceClient)
  : list TraceCall :=
  (if langfuse then [CallLangfuseFlush] else [])
    ++ match t with
       | Some c => if has_flushAsync c then [CallTraceFlush] else []
       | None => []
       end.

(** Every cached value is what the configured tool's own [execute]
    returned on a call that the tool log records. *)
Definition cache_sound (entries : list (string * Tool)) (w : World) : Prop :=
  forall k v,
    toolResultCache w !! k = Some v ->
    exists n a tool before,
      k = cacheKey n a
      /\ find_entry n entries = Some tool
      /\ (before ++ [ {| inv_tool := n; inv_args := a |} ]) `prefix_of` invoked w
      /\ execute tool before a = Return v.

(** The stage agent behind a stage. *)
Definition stage_agent (agents : Agents) (stage : Stage) : StageAgent :=
  match stage with
  | Router => routerAgent agents
  | Research => researchAgent agents
  | Strategy => strategyAgent agents
  | Formatter => formatterAgent agents
  | Publisher => publisherAgent agents
  end.

(** The stage fails with [e]: the agent call rejects, or reading its text
    stream throws, or its tool results reject. *)
Definition stage_throws (agent : StageAgent) (input : list AgentMessage)
    (e : JsError) : Prop :=
  match agent input with
  | Throw e' => e' = e
  | Return streamed =>
      match textStreamError streamed with
      | Some e' => e' = e
      | None => toolResults streamed = Throw e
      end
  end.

(** A recorded stage call delivered its tool results. *)
Definition delivered (agents : Agents) (c : Stage * list AgentMessage) : Prop :=
  exists results, stage_yields (stage_agent agents c.1) c.2 results.

(** A recorded stage call was given exactly one message, of role user. *)
Definition one_user_message (c : Stage * list AgentMessage) : Prop :=
  exists text n, c.2 = [user_message text n].

(** The stages of the content pipeline in the order of the source. *)
Definition pipeline : list Stage :=
  [Router; Research; Strategy; Formatter; Publisher].

(** ** createStreamingAgent *)

Record StreamingAgentConfig : Type := {
  sa_model : string;
  sa_systemPrompt : string;
  sa_tools : option (list (string * Tool));
  sa_maxSteps : option nat;
  sa_maxTokens : option nat;
  sa_langfuse : bool
}.

(** The options [streamText] is called with; the temperature, a float,
    and the two logging callbacks are left out. *)
Record StreamTextRequest : Type := {
  st_model : string;
  st_system : string;
  st_messages : list AgentMessage;
  st_maxSteps : nat;
  st_maxTokens : nat;
  st_tools : list (string * Tool)
}.

(** [logger.error(...)], a line on the console. *)
Definition console_error {S} `{HasWorld S} (line : string) : M S unit :=
  modify_world (add_console line).

(** The [try] block: convert the messages, then [await streamText]. The
    defaults of the destructured configuration apply to absent fields. *)
Definition stream_attempt {R}
    (convertToCoreMessages : list AgentMessage -> Completion (list AgentMessage))
    (streamText : StreamTextRequest -> M World R)
    (config : StreamingAgentConfig) (messages : list AgentMessage) : M World R :=
  coreMessages <- (fun w => (w, convertToCoreMessages messages)) ;;
  streamText {| st_model := sa_model config;
                st_system := sa_systemPrompt config;
                st_messages := coreMessages;
                st_maxSteps := default 5 (sa_maxSteps config);
                st_maxTokens := default 4096 (sa_maxTokens config);
                st_tools := default [] (sa_tools config) |}.

(** The function [createStreamingAgent(config)] returns. Neither
    [langfuse?.trace] nor [langfuse?.flushAsync] is guarded. *)
Definition createStreamingAgent {R} (backend : Backend)
    (convertToCoreMessages : list AgentMessage -> Completion (list AgentMessage))
    (streamText : StreamTextRequest -> M World R)
    (config : StreamingAgentConfig) (messages : list AgentMessage) : M World R :=
  when (sa_langfuse config) (backend_call backend (CallTrace "streaming-agent")) ;;
  try_finally
    (try_catch
       (stream_attempt convertToCoreMessages streamText config messages)
       (fun error =>
          console_error ("[ERROR] Error in streaming agent: " +:+ error) ;;
          throw error))
    (when (sa_langfuse config) (backend_call backend CallLangfuseFlush)).

(** ** The wrapped tools of the data-stream agent *)

Inductive AgentEvent : Type :=
| ToolStartEvent (name : string) (args : JsValue)
| ToolEndEvent (name : string) (result : JsValue).

(** The data stream decides, from the events it has taken so far, whether
    a write throws. *)
Record DataStream : Type := {
  rejects : list AgentEvent -> AgentEvent -> option JsError
}.

(** The events the stream has taken, the lines given to the logger, and
    the calls of the tools' own [execute]. *)
Record StreamWorld : Type := {
  written : list AgentEvent;
  logged : list string;
  executed : list Invocation
}.

(** [dataStream.writeData(event)]. *)
Definition writeData (stream : DataStream) (event : AgentEvent)
  : M StreamWorld unit :=
  fun w =>
    match rejects stream (written w) event with
    | Some e => (w, Throw e)
    | None =>
        ({| written := written w ++ [event]; logged := logged w;
            executed := executed w |}, Return tt)
    end.

(** [logger?.debug(msg)] and its siblings: nothing without a logger; the
    methods of a logger are taken to return. *)
Definition log_line (logger : bool) (line : string) : M StreamWorld unit :=
  fun w =>
    (if logger then
       {| written := written w; logged := logged w ++ [line];
          executed := executed w |}
     else w, Return tt).

(** [tool.execute(args, context)]. *)
Definition run_tool (toolName : string) (tool : Tool) (args : JsValue)
  : M StreamWorld JsValue :=
  fun w =>
    ({| written := written w; logged := logged w;
        executed :=
          executed w ++ [ {| inv_tool := toolName; inv_args := args |} ] |},
     execute tool (executed w) args).

(** The [execute] that the agent's [run] installs for the tool
    [toolName]. *)
Definition streamed_execute (stream : DataStream) (logger : bool)
    (toolName : string) (tool : Tool) (args : JsValue) : M StreamWorld JsValue :=
  log_line logger ("Tool call start: " +:+ toolName) ;;
  writeData stream (ToolStartEvent toolName args) ;;
  try_catch
    (result <- run_tool toolName tool args ;;
     log_line logger ("Tool call end: " +:+ toolName) ;;
     writeData stream (ToolEndEvent toolName result) ;;
     ret result)
    (fun error =>
       log_line logger ("Tool call error: " +:+ toolName) ;;
       throw error).

(** ** wrapTool and the tools of the content pipeline *)

(** The [execute] of the tool [wrapTool(config)] builds; [toolName] is
    the name the tool is registered under, which the tool log records. *)
Definition wrapTool (toolName : string) (config : Tool) (args : JsValue)
  : M World JsValue :=
  console_error ("Tool Execution Started: " +:+ description config) ;;
  result <- tool_execute toolName config args ;;
  console_error ("Tool Execution Completed: " +:+ description config) ;;
  ret result.

(** [s.includes(needle)]. *)
Fixpoint includes (s needle : string) : bool :=
  String.prefix needle s
  || match s with
     | EmptyString => false
     | String _ rest => includes rest needle
     end.

(** [s.split(sep)] for a separator of one character. *)
Fixpoint split_on (sep : ascii) (s : string) : list string :=
  match s with
  | EmptyString => [EmptyString]
  | String c rest =>
      if Ascii.eqb c sep then EmptyString :: split_on sep rest
      else
        match split_on sep rest with
        | piece :: pieces => String c piece :: pieces
        | [] => [String c EmptyString]
        end
  end.

(** The number of occurrences of a character. *)
Fixpoint occurrences (c : ascii) (s : string) : nat :=
  match s with
  | EmptyString => 0
  | String c' rest => (if Ascii.eqb c' c then 1 else 0) + occurrences c rest
  end.

(** [Math.ceil(n / d)] on a count [n] and a positive [d]; the quotient of
    two such integers is exact enough in a double for the ceiling to be
    the integer one. *)
Definition ceil_div (n d : Z) : Z := ((n + d - 1) / d)%Z.

Definition route_object (action platform : string) : JsValue :=
  JObj [("action", JStr action); ("platform", JStr platform)].

(** The body of [routerTool]'s [execute] on the [userInput] it is given.
    [toLowerCase] is the method of the JavaScript string. *)
Definition routerTool_route (toLowerCase : string -> string)
    (userInput : string) : JsValue :=
  let input := toLowerCase userInput in
  if includes input "strategy" then route_object "create_strategy" "twitter"
  else if includes input "update" || includes input "manage" then
    route_object "manage_content" "blog"
  else
    let platform :=
      if includes input "linkedin" then "linkedin"
      else if includes input "twitter" then "twitter"
      else "blog" in
    route_object "create_content" platform.

(** The configuration [routerTool] hands to [wrapTool]: [execute]
    destructures [userInput] from its argument, and calling
    [toLowerCase] on anything but a string throws. *)
Definition routerTool_config (toLowerCase : string -> string) : Tool :=
  {| description := "A tool that parses user input to decide the route action";
     execute := fun _ args =>
       match opt_get args "userInput" with
       | JStr userInput => Return (routerTool_route toLowerCase userInput)
       | _ => Throw "TypeError: userInput.toLowerCase is not a function"
       end |}.

Definition routerTool (toLowerCase : string -> string) : ToolFn :=
  wrapTool "routerTool" (routerTool_config toLowerCase).

(** The body of [formatterTool]'s [execute], on arguments that are
    strings, as its schema has them. *)
Definition formatterTool (toUpperCase : string -> string)
    (content platform tone : string) : JsValue :=
  let words := split_on " " content in
  JObj
    [ ("formattedContent",
       JStr ("[" +:+ toUpperCase platform +:+ "] " +:+ content
               +:+ " (in " +:+ tone +:+ " tone)"));
      ("metadata",
       JObj [ ("platform", JStr platform);
              ("type", JStr (if String.eqb platform "blog" then "article"
                             else "post"));
              ("wordCount", JNum (Z.of_nat (length words)));
              ("readingTime", JNum (ceil_div (Z.of_nat (length words)) 200)) ]);
      ("structure",
       JObj [ ("sections",
               JArr [ JObj [("type", JStr "opening");
                            ("content", JStr "Opening lines...")];
                      JObj [("type", JStr "body");
                            ("content", JStr "Main content...")];
                      JObj [("type", JStr "closing");
                            ("content", JStr "Call to action...")] ]) ]);
      ("seo",
       JObj [ ("keywords", JArr (JStr <$> take 5 words));
              ("hashtags", JArr [JStr "#Tech"; JStr "#Innovation"]) ]) ].

(** ** formatResponse *)

(** What one content entry adds to the output: its text when that is not
    empty, otherwise its tool results when they are truthy. [pretty] is
    [JSON.stringify(., null, 2)]. *)
Definition content_lines (pretty : JsValue -> string) (c : MessageContent)
  : list string :=
  match c with
  | TextContent t => if String.eqb t "" then [] else [t]
  | ToolCallContent _ _ results =>
      if truthy results then ["Tool Results: " +:+ pretty results] else []
  end.

(** The [output] array: the entries of the assistant messages, in order. *)
Definition response_lines (pretty : JsValue -> string)
    (response : AgentResponse) : list string :=
  let messages :=
    match response with
    | UnstructuredResponse ms _ => ms
    | StructuredResponse _ _ => []
    end in
  flat_map (fun msg =>
              if String.eqb (msg_role msg) "assistant" then
                flat_map (content_lines pretty) (msg_content msg)
              else [])
    messages.

(** [formatResponse(response)] on the value an agent returned. The
    separator is the literal of the source, a backslash and an n. *)
Definition formatResponse (pretty : JsValue -> string)
    (response : AgentResponse) : string :=
  let joined :=
    String.concat (String BSL "n") (response_lines pretty response) in
  if String.eqb joined "" then "No text content in response" else joined.

(** ** More sample inputs *)

(** A backend double whose Langfuse flush throws and nothing else. *)
Definition flush_failing_backend : Backend :=
  {| throws := fun _ c =>
       match c with
       | CallLangfuseFlush => Some "flush failed"
       | _ => None
       end;
     new_trace := {| has_flushAsync := false |} |}.

Definition serverless_config : AgentConfig :=
  {| name := "agent"; trace := Some client; createNewTrace := false;
     langfuse := true; isServerless := true |}.

Definition hello_result : GenResult :=
  {| text := "hello"; toolCalls := [call "echo" (JStr "hello")] |}.

Definition sample_streaming_config (with_langfuse : bool)
  : StreamingAgentConfig :=
  {| sa_model := "gpt-4o-mini"; sa_systemPrompt := "You are a router";
     sa_tools := None; sa_maxSteps := Some 3; sa_maxTokens := None;
     sa_langfuse := with_langfuse |}.

(** A [streamText] double that answers with the system prompt it got. *)
Definition sample_streamText (request : StreamTextRequest) : M World string :=
  ret (st_system request).

Definition open_stream : DataStream := {| rejects := fun _ _ => None |}.

Definition empty_stream_world : StreamWorld :=
  {| written := []; logged := []; executed := [] |}.

(** [toLowerCase] on the letters A to Z. *)
Definition lower_char (c : ascii) : ascii :=
  let n := nat_of_ascii c in
  if Nat.leb 65 n && Nat.leb n 90 then ascii_of_nat (n + 32) else c.

Fixpoint lower_ascii (s : string) : string :=
  match s with
  | EmptyString => EmptyString
  | String c rest => String (lower_char c) (lower_ascii rest)
  end.

Definition linkedin_route : JsValue :=
  JObj [("action", JStr "create_content"); ("platform", JStr "linkedin")].

Definition strategy_route : JsValue :=
  JObj [("action", JStr "create_strategy"); ("platform", JStr "twitter")].

Definition manage_route : JsValue :=
  JObj [("action", JStr "manage_content"); ("platform", JStr "blog")].

(** Stage agents whose formatter delivers no tool result. *)
Definition agents_without_formatted_content : Agents :=
  {| routerAgent := stage_returning (tool_result linkedin_route);
     researchAgent := stage_returning (JArr []);
     strategyAgent := stage_returning (JArr []);
     formatterAgent := stage_returning (JArr []);
     publisherAgent :=
       stage_returning (tool_result (JObj [("status", JStr "published")])) |}.

(* ===================================================================== *)
(** * Part II: properties                                                 *)
(* ===================================================================== *)

(** ** The JavaScript fragment on small inputs *)

Example stringify_array :
  JSON_stringify (JArr [JNum 1; JUndefined; JBool true; JNum (-20)])
  = Some "[1,null,true,-20]".
Proof. reflexivity. Qed.

Example stringify_skips_undefined :
  JSON_stringify_object [("u", JUndefined)] = "{}".
Proof. reflexivity. Qed.

Example escape_newline : escape_char (ascii_of_nat 10) = [BSL; "n"%char].
Proof. reflexivity. Qed.

Example escape_control :
  escape_char (ascii_of_nat 31)
  = [BSL; "u"%char; "0"%char; "0"%char; "1"%char; "f"%char].
Proof. reflexivity. Qed.

Example to_string_array :
  js_to_string (JArr [JNum 1; JNull; JArr [JStr "a"; JStr "b"]; JObj []])
  = "1,,a,b,[object Object]".
Proof. reflexivity. Qed.

Example or_keeps_truthy : js_or (JStr "casual") (JStr "professional") = JStr "casual".
Proof. reflexivity. Qed.

Example or_replaces_falsy : js_or (JStr "") (JStr "professional") = JStr "professional".
Proof. reflexivity. Qed.

Example first_result_of_none : first_result (JArr []) = JUndefined.
Proof. reflexivity. Qed.

Example first_result_of_one :
  first_result (tool_result (JStr "r")) = JStr "r".
Proof. reflexivity. Qed.

(** ** [JSON.stringify] loses nothing on JSON data *)

Section JsonFacts.

Lemma JsValue_nested_ind (P : JsValue -> Prop) :
  P JUndefined -> P JNull -> (forall b, P (JBool b)) -> (forall z, P (JNum z)) ->
  (forall s, P (JStr s)) ->
  (forall items, Forall P items -> P (JArr items)) ->
  (forall props, Forall (fun kv => P (snd kv)) props -> P (JObj props)) ->
  forall v, P v.
Proof.
  intros Hu Hn Hb Hz Hs Ha Ho.
  fix IH 1. intros [ | | b | z | s | items | props ].
  - exact Hu.
  - exact Hn.
  - apply Hb.
  - apply Hz.
  - apply Hs.
  - apply Ha.
    induction items as [ | x r IHr ]; constructor; [ apply IH | exact IHr ].
  - apply Ho.
    induction props as [ | [k x] r IHr ]; constructor; [ apply IH | exact IHr ].
Qed.

Lemma unescape_escape_char c r :
  unescape_char (escape_char c ++ r) = Some (c, r).
Proof. destruct c as [[] [] [] [] [] [] [] []]; reflexivity. Qed.

Lemma escape_char_head c r r' : escape_char c ++ r <> DQ :: r'.
Proof. destruct c as [[] [] [] [] [] [] [] []]; discriminate. Qed.

Lemma escape_terminated_inj s1 : forall s2 r1 r2,
  escape s1 ++ DQ :: r1 = escape s2 ++ DQ :: r2 -> s1 = s2 /\ r1 = r2.
Proof.
  induction s1 as [ | c1 s1 IH ]; intros [ | c2 s2 ] r1 r2; simpl; intros H.
  - by injection H.
  - rewrite <- app_assoc in H. symmetry in H. by apply escape_char_head in H.
  - rewrite <- app_assoc in H. by apply escape_char_head in H.
  - rewrite <- !app_assoc in H.
    apply (f_equal unescape_char) in H.
    rewrite !unescape_escape_char in H.
    injection H as -> H. apply IH in H as [-> ->]. done.
Qed.

Lemma chars_inj s1 s2 : chars s1 = chars s2 -> s1 = s2.
Proof.
  intros H. apply (f_equal string_of_list_ascii) in H.
  unfold chars in H. by rewrite !string_of_list_ascii_of_string in H.
Qed.

Lemma string_of_list_ascii_inj l1 l2 :
  string_of_list_ascii l1 = string_of_list_ascii l2 -> l1 = l2.
Proof.
  intros H. apply (f_equal list_ascii_of_string) in H.
  by rewrite !list_ascii_of_string_of_list_ascii in H.
Qed.

Lemma quote_app s r : quote s ++ r = DQ :: escape (chars s) ++ DQ :: r.
Proof. unfold quote. simpl. by rewrite <- app_assoc. Qed.

Lemma quote_inj s1 s2 r1 r2 :
  quote s1 ++ r1 = quote s2 ++ r2 -> s1 = s2 /\ r1 = r2.
Proof.
  rewrite !quote_app. intros H. injection H as H.
  apply escape_terminated_inj in H as [H ->].
  split; [ by apply chars_inj | done ].
Qed.

Lemma uint_numeral d :
  forallb is_numeral (chars (NilEmpty.string_of_uint d)) = true.
Proof. induction d; simpl; auto. Qed.

Lemma digits_numeral z : forallb is_numeral (digits z) = true.
Proof.
  unfold digits. destruct z as [ | p | p ]; simpl; auto using uint_numeral.
Qed.

Lemma digits_head z :
  exists c t, digits z = c :: t /\ is_numeral c = true.
Proof.
  pose proof (digits_numeral z) as Hn.
  assert (digits z <> []) as Hne.
  { unfold digits. destruct z as [ | p | p ]; simpl; try discriminate.
    pose proof (Unsigned.to_uint_nonnil p) as Hp.
    destruct (Pos.to_uint p); simpl; try discriminate. by destruct Hp. }
  destruct (digits z) as [ | c t ]; [ done | ].
  exists c, t. simpl in Hn. apply andb_true_iff in Hn as [Hc _]. done.
Qed.

Lemma span_numeral_app n r :
  forallb is_numeral n = true -> rest_ok r = true ->
  span_numeral (n ++ r) = (n, r).
Proof.
  intros Hn Hr. induction n as [ | c n IH ]; cbn [app span_numeral].
  - destruct r as [ | c r ]; [ done | ]. cbn [rest_ok] in Hr.
    apply negb_true_iff in Hr. cbn [span_numeral]. by rewrite Hr.
  - cbn [forallb] in Hn. apply andb_true_iff in Hn as [Hc Hn].
    rewrite Hc, (IH Hn). done.
Qed.

Lemma digits_inj z1 z2 r1 r2 :
  rest_ok r1 = true -> rest_ok r2 = true ->
  digits z1 ++ r1 = digits z2 ++ r2 -> z1 = z2 /\ r1 = r2.
Proof.
  intros H1 H2 H. apply (f_equal span_numeral) in H.
  rewrite !span_numeral_app in H by auto using digits_numeral.
  injection H as H ->. split; [ | done ].
  apply chars_inj in H. apply DecimalZ.to_int_inj.
  apply (f_equal NilEmpty.int_of_string) in H.
  rewrite !NilEmpty.isi in H. by injection H.
Qed.

Lemma render_arr l : render (JArr l) = chars "[" ++ render_elems l ++ chars "]".
Proof. reflexivity. Qed.

Lemma render_obj l :
  render (JObj l) = chars "{" ++ render_members true l ++ chars "}".
Proof. reflexivity. Qed.

Lemma render_head v r :
  exists c t, render v ++ r = c :: t /\ char_kind c = value_kind v.
Proof.
  destruct v as [ | | [] | z | s | l | l ]; try (by eexists _, _).
  destruct (digits_head z) as (c & t & Hz & Hc).
  exists c, (t ++ r). cbn [render]. rewrite Hz. split; [ done | ].
  unfold char_kind. by rewrite Hc.
Qed.

Lemma render_kind v1 v2 r1 r2 :
  render v1 ++ r1 = render v2 ++ r2 -> value_kind v1 = value_kind v2.
Proof.
  intros H.
  destruct (render_head v1 r1) as (c1 & t1 & E1 & <-).
  destruct (render_head v2 r2) as (c2 & t2 & E2 & <-).
  rewrite E1, E2 in H. by injection H as -> _.
Qed.

(** No value is rendered with a separator or a closing bracket in front. *)
Lemma render_not_closing v r c t :
  render v ++ r = c :: t -> char_kind c <> 0.
Proof.
  intros H. destruct (render_head v r) as (c' & t' & E & Hk).
  rewrite E in H. injection H as -> _. rewrite Hk. by destruct v.
Qed.

Lemma elems_cons x l q :
  render_elems (x :: l) ++ q = render x ++ elems_tail l ++ q.
Proof.
  destruct l as [ | y l ]; cbn [render_elems elems_tail].
  - done.
  - by rewrite <- !app_assoc.
Qed.

Lemma elems_tail_rest_ok l r : rest_ok (elems_tail l ++ chars "]" ++ r) = true.
Proof. by destruct l. Qed.

Lemma members_rest_ok l r :
  forallb (fun kv => is_json (snd kv)) l = true ->
  rest_ok (render_members false l ++ chars "}" ++ r) = true.
Proof. destruct l as [ | [k []] l ]; done. Qed.

Lemma members_cons b k x l q :
  is_json x = true ->
  render_members b ((k, x) :: l) ++ q
  = (if b then [] else chars ",")
      ++ quote k ++ chars ":" ++ render x ++ render_members false l ++ q.
Proof.
  intros Hx. destruct x; try discriminate Hx;
    cbn [render_members]; by rewrite <- !app_assoc.
Qed.

Lemma elems_tail_inj l1 : Forall separable l1 -> forall l2 r1 r2,
  forallb is_json l1 = true -> forallb is_json l2 = true ->
  elems_tail l1 ++ chars "]" ++ r1 = elems_tail l2 ++ chars "]" ++ r2 ->
  l1 = l2 /\ r1 = r2.
Proof.
  induction 1 as [ | x1 l1 Hx _ IH ]; intros [ | x2 l2 ] r1 r2 J1 J2 H;
    try discriminate H.
  - by injection H.
  - cbn [elems_tail] in H. rewrite <- !app_assoc in H.
    apply app_inv_head in H.
    rewrite !elems_cons in H.
    cbn [forallb] in J1, J2.
    apply andb_true_iff in J1 as [Jx1 J1], J2 as [Jx2 J2].
    apply Hx in H as [-> H]; auto using elems_tail_rest_ok.
    apply IH in H as [-> ->]; auto.
Qed.

Lemma elems_inj l1 : Forall separable l1 -> forall l2 r1 r2,
  forallb is_json l1 = true -> forallb is_json l2 = true ->
  render_elems l1 ++ chars "]" ++ r1 = render_elems l2 ++ chars "]" ++ r2 ->
  l1 = l2 /\ r1 = r2.
Proof.
  intros HP l2 r1 r2 J1 J2 H.
  destruct HP as [ | x1 l1 Hx HP ], l2 as [ | x2 l2 ].
  - by injection H.
  - rewrite elems_cons in H. symmetry in H.
    by apply render_not_closing in H.
  - rewrite elems_cons in H. by apply render_not_closing in H.
  - rewrite !elems_cons in H.
    cbn [forallb] in J1, J2.
    apply andb_true_iff in J1 as [Jx1 J1], J2 as [Jx2 J2].
    apply Hx in H as [-> H]; auto using elems_tail_rest_ok.
    apply elems_tail_inj in H as [-> ->]; auto.
Qed.

Lemma members_inj l1 :
  Forall (fun kv => separable (snd kv)) l1 -> forall b l2 r1 r2,
  forallb (fun kv => is_json (snd kv)) l1 = true ->
  forallb (fun kv => is_json (snd kv)) l2 = true ->
  render_members b l1 ++ chars "}" ++ r1
  = render_members b l2 ++ chars "}" ++ r2 ->
  l1 = l2 /\ r1 = r2.
Proof.
  induction 1 as [ | [k1 x1] l1 Hx _ IH ];
    intros b [ | [k2 x2] l2 ] r1 r2 J1 J2 H;
    cbn [forallb snd] in J1, J2; try (cbn [snd] in Hx);
    try (apply andb_true_iff in J1 as [Jx1 J1]);
    try (apply andb_true_iff in J2 as [Jx2 J2]).
  - by injection H.
  - rewrite members_cons in H by done. by destruct b.
  - rewrite members_cons in H by done. by destruct b.
  - rewrite !members_cons in H by done.
    apply app_inv_head in H.
    apply quote_inj in H as [-> H]. apply (app_inv_head (chars ":")) in H.
    apply Hx in H as [-> H]; auto using members_rest_ok.
    apply IH in H as [-> ->]; auto.
Qed.

Lemma render_separable v : separable v.
Proof.
  induction v as [ | | b1 | z1 | s1 | l1 IH | l1 IH ] using JsValue_nested_ind;
    intros v2 r1 r2 J1 J2 R1 R2 H;
    pose proof (render_kind _ _ _ _ H) as K;
    destruct v2 as [ | | b2 | z2 | s2 | l2 | l2 ]; try discriminate.
  - by injection H.
  - destruct b1, b2; try discriminate H; by injection H.
  - cbn [render] in H. apply digits_inj in H as [-> ->]; done.
  - cbn [render] in H. apply quote_inj in H as [-> ->]. done.
  - rewrite !render_arr, <- !app_assoc in H. apply app_inv_head in H.
    apply elems_inj in H as [-> ->]; done.
  - rewrite !render_obj, <- !app_assoc in H. apply app_inv_head in H.
    apply members_inj in H as [-> ->]; done.
Qed.

(** On JSON data [JSON.stringify] is one-to-one. *)
Lemma render_inj v1 v2 :
  is_json v1 = true -> is_json v2 = true -> render v1 = render v2 -> v1 = v2.
Proof.
  intros J1 J2 H.
  destruct (render_separable v1 v2 [] [] J1 J2) as [-> _]; try done.
  by rewrite !app_nil_r.
Qed.

Lemma cacheKey_inj n1 a1 n2 a2 :
  is_json a1 = true -> is_json a2 = true ->
  cacheKey n1 a1 = cacheKey n2 a2 -> n1 = n2 /\ a1 = a2.
Proof.
  intros J1 J2 H. unfold cacheKey, JSON_stringify_object in H.
  apply string_of_list_ascii_inj, render_inj in H.
  - by injection H as -> ->.
  - cbn. by rewrite J1.
  - cbn. by rewrite J2.
Qed.

End JsonFacts.

(** ** The cache key *)

(** C7 (amended): the cache key is [JSON.stringify({ toolName, args })],
    which writes the properties of [args] in enumeration order. For
    argument objects that are JSON data, two calls have the same key
    exactly when they name the same tool and their arguments are
    identical, property order included; calls that differ in the tool or
    in any value have distinct keys and independent cache entries. *)
Theorem cache_key_sensitivity n1 a1 n2 a2 :
  is_json a1 = true -> is_json a2 = true ->
  (cacheKey n1 a1 = cacheKey n2 a2 <-> n1 = n2 /\ a1 = a2)
  /\ (~ (n1 = n2 /\ a1 = a2) ->
      forall (cache : gmap string JsValue) v,
        <[cacheKey n1 a1 := v]> cache !! cacheKey n2 a2
        = cache !! cacheKey n2 a2).
Proof.
  intros J1 J2. split.
  - split; [ by apply cacheKey_inj | by intros [-> ->] ].
  - intros Hne cache v. apply lookup_insert_ne.
    intros H. by apply Hne, cacheKey_inj.
Qed.

Lemma cache_key_sensitivity_witness :
  (cacheKey "search" args_ab = cacheKey "search" args_ba
   <-> "search" = "search" /\ args_ab = args_ba)
  /\ (~ ("search" = "search" /\ args_ab = args_ba) ->
      forall (cache : gmap string JsValue) v,
        <[cacheKey "search" args_ab := v]> cache !! cacheKey "search" args_ba
        = cache !! cacheKey "search" args_ba).
Proof.
  apply (cache_key_sensitivity "search" args_ab "search" args_ba); reflexivity.
Defined.

(** C7 as stated fails: two argument objects with the same properties in a
    different order get different keys. *)
Lemma cache_key_depends_on_property_order :
  (forall k, opt_get args_ab k = opt_get args_ba k)
  /\ cacheKey "search" args_ab <> cacheKey "search" args_ba.
Proof.
  split.
  - intros k. cbn.
    destruct (String.eqb_spec k "a") as [-> | _]; [ reflexivity | ].
    by destruct (String.eqb_spec k "b").
  - discriminate.
Qed.

(** ** Running computations *)

Lemma bind_run {S A B} (m : M S A) (k : A -> M S B) s s' a :
  m s = (s', Return a) -> bind m k s = k a s'.
Proof. intros H. unfold bind. by rewrite H. Qed.

Lemma bind_throw {S A B} (m : M S A) (k : A -> M S B) s s' e :
  m s = (s', Throw e) -> bind m k s = (s', Throw e).
Proof. intros H. unfold bind. by rewrite H. Qed.

Section Tracing.
Context {A B : Type}.

Lemma tracing_ret (a : A) : tracing_only (ret a).
Proof. by intros w. Qed.

Lemma tracing_throw e : tracing_only (@throw World A e).
Proof. by intros w. Qed.

Lemma tracing_bind (m : M World A) (k : A -> M World B) :
  tracing_only m -> (forall a, tracing_only (k a)) -> tracing_only (bind m k).
Proof.
  intros Hm Hk w. unfold bind. specialize (Hm w).
  destruct (m w) as [w1 [a | e]]; cbn in *; [ | done ].
  destruct (Hk a w1) as [-> ->]. done.
Qed.

Lemma tracing_try_catch (m : M World A) h :
  tracing_only m -> (forall e, tracing_only (h e)) ->
  tracing_only (try_catch m h).
Proof.
  intros Hm Hh w. unfold try_catch. specialize (Hm w).
  destruct (m w) as [w1 [a | e]]; cbn in *; [ done | ].
  destruct (Hh e w1) as [-> ->]. done.
Qed.

Lemma tracing_backend_call backend c : tracing_only (backend_call backend c).
Proof. intros w. unfold backend_call. cbn. by destruct (throws _ _ _). Qed.

Lemma tracing_console_warn line : tracing_only (console_warn line).
Proof. by intros w. Qed.

Lemma observes_ret (a : A) (Q : A -> Prop) : Q a -> observes (ret a) Q.
Proof. intros H w. by exists w, a. Qed.

Lemma observes_bind (m : M World A) (k : A -> M World B) P Q :
  observes m P -> (forall a, P a -> observes (k a) Q) ->
  observes (bind m k) Q.
Proof.
  intros Hm Hk w. unfold bind.
  destruct (Hm w) as (w1 & a & -> & Ha & I1 & C1).
  destruct (Hk a Ha w1) as (w2 & b & -> & Hb & I2 & C2).
  exists w2, b. by rewrite I2, C2.
Qed.

(** Whatever a tracing-only operation does, [safeTraceOperation] turns
    it into one that returns. *)
Lemma observes_safe (op : M World A) msg d :
  tracing_only op -> observes (safeTraceOperation op msg d) (fun _ => True).
Proof.
  intros Hop w. unfold safeTraceOperation, try_catch, bind.
  specialize (Hop w). destruct (op w) as [w1 [a | e]]; cbn in *.
  - by exists w1, (Some a).
  - eexists _, d. by split.
Qed.
End Tracing.

Lemma observes_when b (m : M World unit) :
  observes m (fun _ => True) -> observes (when b m) (fun _ => True).
Proof. destruct b; [ done | ]. intros _. by apply observes_ret. Qed.

Lemma tracing_when b (m : M World unit) :
  tracing_only m -> tracing_only (when b m).
Proof. destruct b; [ done | ]. intros _. apply tracing_ret. Qed.

Lemma observes_for_each {A} (l : list A) (body : A -> M World unit) :
  (forall x, observes (body x) (fun _ => True)) ->
  observes (for_each l body) (fun _ => True).
Proof.
  intros Hb. induction l as [ | x l IH ]; cbn [for_each].
  - by apply observes_ret.
  - eapply observes_bind; [ apply Hb | done ].
Qed.

Lemma tracing_for_each {A} (l : list A) (body : A -> M World unit) :
  (forall x, tracing_only (body x)) -> tracing_only (for_each l body).
Proof.
  intros Hb. induction l as [ | x l IH ]; cbn [for_each].
  - apply tracing_ret.
  - by apply tracing_bind.
Qed.

(** A guarded backend operation followed by [ret tt]. *)
Lemma observes_guarded {A} (op : M World A) msg d :
  tracing_only op ->
  observes (safeTraceOperation op msg d ;; ret tt) (fun _ => True).
Proof.
  intros H. eapply observes_bind; [ by apply observes_safe | ].
  intros ? _. by apply observes_ret.
Qed.

Create HintDb tracing.
#[local] Hint Resolve tracing_ret tracing_throw tracing_backend_call
  tracing_console_warn tracing_when tracing_for_each observes_when
  observes_for_each observes_guarded observes_safe : tracing.
#[local] Hint Extern 2 (tracing_only (bind _ _)) =>
  apply tracing_bind; [ | intros ? ] : tracing.
#[local] Hint Extern 2 (tracing_only (try_catch _ _)) =>
  apply tracing_try_catch; [ | intros ? ] : tracing.
#[local] Hint Extern 2 (tracing_only (match ?x with _ => _ end)) =>
  destruct x : tracing.

#[local] Arguments wrappedTools : simpl never.

(** ** The parts of the agent around [generateText] *)

Lemma observes_flush backend config t :
  observes (flush_on_exit backend config t) (fun _ => True).
Proof.
  unfold flush_on_exit. apply observes_when.
  unfold ensureTraceFlushed.
  destruct (negb _ && negb _); [ by apply observes_ret | ].
  eapply observes_bind with (P := fun _ => True).
  - destruct (langfuse config); auto with tracing. by apply observes_ret.
  - intros _ _. destruct t as [ c | ]; [ destruct (has_flushAsync c) | ];
      auto with tracing; by apply observes_ret.
Qed.

Lemma observes_obtain_trace backend config :
  observes (obtain_trace backend config) (fun _ => True).
Proof.
  unfold obtain_trace. destruct (_ && _); [ | by apply observes_ret ].
  eapply observes_bind; [ apply observes_safe; auto with tracing | ].
  intros ? _. by apply observes_ret.
Qed.

Lemma start_trace_006 backend config userPrompt w :
  exists w1 t,
    Part006.start_trace backend config userPrompt w = (w1, Return t)
    /\ invoked w1 = invoked w /\ toolResultCache w1 = ∅.
Proof.
  unfold Part006.start_trace.
  rewrite (bind_run _ _ _ (set_cache ∅ w) tt (eq_refl _)).
  match goal with
  | |- exists w1 t, ?m _ = _ /\ _ =>
      assert (observes m (fun _ => True)) as H
  end.
  { eapply observes_bind; [ apply observes_obtain_trace | ]. intros t _.
    eapply observes_bind; [ auto with tracing | ]. intros ? _.
    by apply observes_ret. }
  destruct (H (set_cache ∅ w)) as (w1 & t & E & _ & I & C).
  exists w1, t. done.
Qed.

Lemma finish_006 backend config options t result :
  observes (Part006.finish backend config options t result)
    (fun r => r = Part006.format_response options result).
Proof.
  unfold Part006.finish.
  eapply observes_bind with (P := fun _ => True).
  { apply observes_when, observes_for_each. intros c.
    unfold Part006.log_tool_call. apply observes_guarded. auto with tracing. }
  intros _ _. eapply observes_bind with (P := fun _ => True).
  { auto 6 with tracing. }
  intros _ _. by apply observes_ret.
Qed.

Lemma log_agent_error_throws backend config t e w :
  exists w', log_agent_error backend config t e w = (w', Throw e)
             /\ invoked w' = invoked w.
Proof.
  unfold log_agent_error.
  match goal with
  | |- exists w', bind ?m _ _ = _ /\ _ =>
      assert (observes m (fun _ => True)) as H by auto with tracing
  end.
  destruct (H w) as (w' & [] & E & _ & I & _).
  exists w'. by rewrite (bind_run _ _ _ _ _ E).
Qed.

(** The outcome of the first agent is the outcome of [generateText], with
    the result formatted. *)
Lemma createAgent_006_outcome backend gen config options userPrompt w w1 t w2 g :
  Part006.start_trace backend config userPrompt w = (w1, Return t) ->
  Part006.generate backend gen config options userPrompt t w1 = (w2, g) ->
  exists w3,
    Part006.createAgent backend gen config options userPrompt w
    = (w3, match g with
           | Return result => Return (Part006.format_response options result)
           | Throw e => Throw e
           end)
    /\ invoked w3 = invoked w2.
Proof.
  intros Hs Hg. unfold Part006.createAgent.
  rewrite (bind_run _ _ _ _ _ Hs).
  unfold try_finally, try_catch.
  destruct g as [result | e].
  - rewrite (bind_run _ _ _ _ _ Hg).
    destruct (finish_006 backend config options t result w2)
      as (w3 & r & -> & -> & I3 & _).
    destruct (observes_flush backend config t w3) as (w4 & [] & -> & _ & I4 & _).
    exists w4. by rewrite I4.
  - rewrite (bind_throw _ _ _ _ _ Hg).
    destruct (log_agent_error_throws backend config t e w2) as (w3 & -> & I3).
    destruct (observes_flush backend config t w3) as (w4 & [] & -> & _ & I4 & _).
    exists w4. by rewrite I4.
Qed.

Lemma createAgent_006_generated backend gen config options userPrompt w :
  (Part006.createAgent backend gen config options userPrompt w).2
  = match (Part006.generated backend gen config options userPrompt w).2 with
    | Return result => Return (Part006.format_response options result)
    | Throw e => Throw e
    end.
Proof.
  destruct (start_trace_006 backend config userPrompt w) as (w1 & t & Hs & _).
  destruct (Part006.generate backend gen config options userPrompt t w1)
    as [w2 g] eqn:Hg.
  destruct (createAgent_006_outcome _ _ _ _ _ _ _ _ _ _ Hs Hg) as (w3 & -> & _).
  unfold Part006.generated. rewrite (bind_run _ _ _ _ _ Hs), Hg. done.
Qed.

(** ** The wrapped tool *)

Ltac run_wrapped :=
  unfold safeTraceOperation, try_catch, bind, backend_call, tool_execute,
    assign_result, cache_set, modify_world, console_warn, throw, ret;
  cbn.

Ltac split_throws :=
  repeat (match goal with
          | |- context [throws ?b ?h ?c] => destruct (throws b h c)
          end; cbn).

Section Wrapped.
Variables (backend : Backend) (toolName : string) (tool : Tool)
          (args : JsValue).

(** A cache hit is a read: nothing is executed, nothing is traced. *)
Lemma wrapped_hit trace w v :
  toolResultCache w !! cacheKey toolName args = Some v ->
  wrapToolWithTracing backend toolName tool trace args w
  = (add_console ("Using cached result for " +:+ toolName) w, Return v).
Proof. intros H. unfold wrapToolWithTracing. by rewrite H. Qed.

Lemma wrapped_miss_ok client w v :
  toolResultCache w !! cacheKey toolName args = None ->
  throws backend (traced w) (CallSpan ("tool-execution-" +:+ toolName) args)
  = None ->
  execute tool (invoked w) args = Return v ->
  exists w',
    wrapToolWithTracing backend toolName tool (Some client) args w
    = (w', Return v)
    /\ invoked w' = invoked w ++ [ {| inv_tool := toolName; inv_args := args |} ]
    /\ toolResultCache w'
       = <[cacheKey toolName args := v]> (toolResultCache w).
Proof.
  intros Hmiss Hstart Hexec.
  unfold wrapToolWithTracing. rewrite Hmiss. run_wrapped.
  rewrite Hstart. cbn. rewrite Hexec. cbn.
  split_throws; by eexists.
Qed.

(** An error of the tool's own [execute] ends inside
    [safeTraceOperation]: the wrapped [execute] returns [undefined], and
    nothing is cached. *)
Lemma wrapped_miss_throw client w e :
  toolResultCache w !! cacheKey toolName args = None ->
  throws backend (traced w) (CallSpan ("tool-execution-" +:+ toolName) args)
  = None ->
  execute tool (invoked w) args = Throw e ->
  exists w',
    wrapToolWithTracing backend toolName tool (Some client) args w
    = (w', Return JUndefined)
    /\ invoked w' = invoked w ++ [ {| inv_tool := toolName; inv_args := args |} ]
    /\ toolResultCache w' = toolResultCache w.
Proof.
  intros Hmiss Hstart Hexec.
  unfold wrapToolWithTracing. rewrite Hmiss. run_wrapped.
  rewrite Hstart. cbn. rewrite Hexec. cbn.
  split_throws; by eexists.
Qed.

(** When the start span throws, the tool's own [execute] is never
    reached. *)
Lemma wrapped_start_throws client w e :
  toolResultCache w !! cacheKey toolName args = None ->
  throws backend (traced w) (CallSpan ("tool-execution-" +:+ toolName) args)
  = Some e ->
  exists w',
    wrapToolWithTracing backend toolName tool (Some client) args w
    = (w', Return JUndefined)
    /\ invoked w' = invoked w
    /\ toolResultCache w' = toolResultCache w.
Proof.
  intros Hmiss Hstart.
  unfold wrapToolWithTracing. rewrite Hmiss. run_wrapped.
  rewrite Hstart. cbn. by eexists.
Qed.
End Wrapped.

(** C2: the code departs from the claim. The tool of the repository's
    examples rejects on [{ shouldFail: true }]; its wrapped [execute]
    nevertheless returns [undefined] instead of rejecting. As the claim
    says, nothing is cached, and a second identical call runs the tool
    again. *)
Theorem tool_error_is_swallowed :
  let wrapped :=
    wrapToolWithTracing quiet_backend "unreliable" unreliable_tool (Some client)
      should_fail in
  let first := wrapped empty_world in
  let second := wrapped first.1 in
  execute unreliable_tool [] should_fail = Throw "Tool failed as requested"
  /\ first.2 = Return JUndefined
  /\ toolResultCache first.1 !! cacheKey "unreliable" should_fail = None
  /\ invoked second.1
     = [ {| inv_tool := "unreliable"; inv_args := should_fail |};
         {| inv_tool := "unreliable"; inv_args := should_fail |} ].
Proof. cbn zeta. repeat split; reflexivity. Qed.

(** C3 (amended): when the cache has no entry for the call, the backend
    accepts the start span and the tool's own [execute] succeeds, two
    calls of the wrapped tool with the same arguments, one after the
    other on one cache, run [execute] exactly once; both return its
    result, and the second call makes no call on the backend at all. *)
Theorem cache_idempotence backend toolName tool client args w v :
  toolResultCache w !! cacheKey toolName args = None ->
  throws backend (traced w) (CallSpan ("tool-execution-" +:+ toolName) args)
  = None ->
  execute tool (invoked w) args = Return v ->
  let wrapped := wrapToolWithTracing backend toolName tool (Some client) args in
  let first := wrapped w in
  let second := wrapped first.1 in
  first.2 = Return v
  /\ second.2 = Return v
  /\ invoked second.1
     = invoked w ++ [ {| inv_tool := toolName; inv_args := args |} ]
  /\ traced second.1 = traced first.1.
Proof.
  intros Hmiss Hstart Hexec wrapped first second. subst wrapped first second.
  destruct (wrapped_miss_ok backend toolName tool args client w v)
    as (w1 & -> & I1 & C1); try done.
  cbn [fst snd]. rewrite (wrapped_hit _ _ _ _ _ w1 v).
  - done.
  - rewrite C1. apply lookup_insert_eq.
Qed.

Lemma cache_idempotence_witness :
  let wrapped :=
    wrapToolWithTracing quiet_backend "echo" echo_tool (Some client)
      (JStr "hello") in
  let first := wrapped empty_world in
  let second := wrapped first.1 in
  first.2 = Return (JStr "hello")
  /\ second.2 = Return (JStr "hello")
  /\ invoked second.1
     = invoked empty_world
         ++ [ {| inv_tool := "echo"; inv_args := JStr "hello" |} ]
  /\ traced second.1 = traced first.1.
Proof.
  apply (cache_idempotence quiet_backend "echo" echo_tool client (JStr "hello")
           empty_world (JStr "hello")); reflexivity.
Defined.

(** C3 as stated fails for a tool whose [execute] throws: its outcome is
    not cached, and the second call runs [execute] a second time. *)
Lemma failing_tool_runs_twice :
  let wrapped :=
    wrapToolWithTracing quiet_backend "unreliable" unreliable_tool (Some client)
      should_fail in
  let second := wrapped (wrapped empty_world).1 in
  length (invoked second.1) = 2 /\ length (invoked second.1) <> 1.
Proof. cbn zeta. split; [ reflexivity | discriminate ]. Qed.

(** ** The agent and its sink *)

(** With a backend that throws from every method and a trace in use, no
    tool's own [execute] is ever run. *)
Lemma throwing_backend_skips_every_tool backend entries client e :
  (forall h c, is_Some (throws backend h c)) ->
  forall w,
    invoked (run_engine (wrappedTools backend (Some entries) (Some client)) e w).1
    = invoked w.
Proof.
  intros Hthrows.
  induction e as [ result | err | n a k IH ]; intros w; cbn [run_engine];
    [ done | done | ].
  destruct (find_tool n _) as [ f | ] eqn:F; [ | apply IH ].
  assert (exists tool, f = wrapToolWithTracing backend n tool (Some client))
    as [tool ->].
  { clear -F. unfold wrappedTools in F.
    induction entries as [ | [n' tool] rest IHr ]; [ done | ].
    cbn [map find_tool] in F.
    destruct (String.eqb_spec n n') as [-> | _]; [ | by apply IHr ].
    injection F as <-. by exists tool. }
  destruct (toolResultCache w !! cacheKey n a) as [ v | ] eqn:Hc.
  - rewrite (wrapped_hit _ _ _ _ _ _ _ Hc). by rewrite IH.
  - destruct (Hthrows (traced w) (CallSpan ("tool-execution-" +:+ n) a))
      as [err Herr].
    destruct (wrapped_start_throws backend n tool a client w err Hc Herr)
      as (w' & -> & I & _).
    by rewrite IH.
Qed.

(** C1: the code departs from the claim. With a trace supplied by the
    caller and a backend that throws from every method, the first agent
    never runs the tool's own [execute] and returns another value than
    with no sink attached; the second agent lets the backend's exception
    reach its caller. *)
Theorem throwing_backend_changes_the_run :
  let engine := fun _ : GenRequest => once "echo" (JStr "hello") in
  let options := sample_options false both_tools in
  let attached :=
    Part006.createAgent broken_backend engine (sample_config (Some client))
      options "hi" empty_world in
  let without :=
    Part006.createAgent broken_backend engine (sample_config None)
      options "hi" empty_world in
  invoked attached.1 = []
  /\ invoked without.1 = [ {| inv_tool := "echo"; inv_args := JStr "hello" |} ]
  /\ attached.2 <> without.2
  /\ (Part007.createAgent broken_backend engine (sample_config (Some client))
        options "hi" empty_world).2
     = Throw "backend unavailable".
Proof. cbn zeta. repeat split; [ discriminate ]. Qed.

(** C4 (amended): with [requireStructuredOutput = true], whenever
    [generateText] resolves to [result], the agent returns
    [{ toolCalls, structuredOutput }] where [toolCalls] is
    [result.toolCalls] and [structuredOutput] is the text [result.text],
    whatever the arguments of the last tool call are. *)
Theorem structured_output_is_text
    backend gen config options userPrompt w result :
  requireStructuredOutput options = true ->
  (Part006.generated backend gen config options userPrompt w).2 = Return result ->
  (Part006.createAgent backend gen config options userPrompt w).2
  = Return (StructuredResponse (toolCalls result) (JStr (text result))).
Proof.
  intros Hs Hg. rewrite createAgent_006_generated, Hg.
  unfold Part006.format_response. by rewrite Hs.
Qed.

Lemma structured_output_is_text_witness :
  (Part006.createAgent quiet_backend
     (fun _ => Finish {| text := "sunny"; toolCalls := [call "X" args_ab] |})
     (sample_config (Some client)) (sample_options true both_tools) "hi"
     empty_world).2
  = Return (StructuredResponse [call "X" args_ab] (JStr "sunny")).
Proof.
  apply (structured_output_is_text quiet_backend
           (fun _ => Finish {| text := "sunny"; toolCalls := [call "X" args_ab] |})
           (sample_config (Some client)) (sample_options true both_tools) "hi"
           empty_world
           {| text := "sunny"; toolCalls := [call "X" args_ab] |});
    reflexivity.
Defined.

(** C4 as stated fails: the run ends with a call of tool X on
    [{ a: 1, b: "x" }], and [structuredOutput] is the (empty) text, in
    both agents. *)
Lemma structured_output_is_not_the_last_arguments :
  let X := JObj [("a", JNum 1); ("b", JStr "x")] in
  let engine :=
    fun _ : GenRequest => Finish {| text := ""; toolCalls := [call "X" X] |} in
  let options := sample_options true both_tools in
  (Part006.createAgent quiet_backend engine (sample_config None) options "hi"
     empty_world).2
  = Return (StructuredResponse [call "X" X] (JStr ""))
  /\ (Part007.createAgent quiet_backend engine (sample_config None) options "hi"
        empty_world).2
     = Return (StructuredResponse [call "X" X] (JStr ""))
  /\ JStr "" <> X.
Proof. cbn zeta. repeat split; discriminate. Qed.

(** ** The second agent *)

Lemma start_trace_007 backend config userPrompt w :
  exists w1 t,
    Part007.start_trace backend config userPrompt w = (w1, Return t)
    /\ invoked w1 = invoked w /\ toolResultCache w1 = ∅.
Proof.
  unfold Part007.start_trace.
  rewrite (bind_run _ _ _ (set_cache ∅ w) tt (eq_refl _)).
  match goal with
  | |- exists w1 t, ?m _ = _ /\ _ =>
      assert (observes m (fun _ => True)) as H
  end.
  { eapply observes_bind; [ apply observes_obtain_trace | ]. intros t _.
    eapply observes_bind; [ auto 6 with tracing | ]. intros ? _.
    by apply observes_ret. }
  destruct (H (set_cache ∅ w)) as (w1 & t & E & _ & I & C).
  exists w1, t. done.
Qed.

Section Quiet.
Variable backend : Backend.
Hypothesis quiet : forall h c, throws backend h c = None.

Lemma observes_backend_call_quiet c :
  observes (backend_call backend c) (fun _ => True).
Proof.
  intros w. unfold backend_call. cbn. rewrite quiet. by eexists _, _.
Qed.

Lemma observes_log_tool_call_007 toolCall :
  observes (Part007.log_tool_call backend toolCall) (fun _ => True).
Proof.
  unfold Part007.log_tool_call.
  eapply observes_bind; [ apply observes_backend_call_quiet | ]. intros _ _.
  eapply observes_bind; [ apply observes_backend_call_quiet | ]. intros _ _.
  intros w. destruct (truthy _).
  - eapply observes_bind; [ apply observes_backend_call_quiet | ]. intros _ _.
    apply observes_backend_call_quiet.
  - by apply observes_ret.
Qed.

Lemma finish_007 config options t result :
  observes (Part007.finish backend config options t result)
    (fun r => exists cache, r = Part007.format_response options result cache).
Proof.
  unfold Part007.finish.
  eapply observes_bind with (P := fun _ => True).
  { apply observes_when, observes_for_each, observes_log_tool_call_007. }
  intros _ _. eapply observes_bind with (P := fun _ => True).
  { apply observes_when, observes_backend_call_quiet. }
  intros _ _ w.
  eapply observes_bind with (P := fun _ => True).
  { apply observes_when, observes_backend_call_quiet. }
  intros _ _. apply observes_ret. by eexists.
Qed.

(** With a backend that does not throw, the second agent returns the
    formatted result of [generateText] as well. *)
Lemma createAgent_007_generated gen config options userPrompt w result :
  (Part007.generated backend gen config options userPrompt w).2 = Return result ->
  exists cache,
    (Part007.createAgent backend gen config options userPrompt w).2
    = Return (Part007.format_response options result cache).
Proof.
  destruct (start_trace_007 backend config userPrompt w) as (w1 & t & Hs & _).
  unfold Part007.generated, Part007.createAgent.
  rewrite !(bind_run _ _ _ _ _ Hs).
  destruct (Part007.generate backend gen config options userPrompt t w1)
    as [w2 g] eqn:Hg.
  cbn [snd]. intros ->. unfold try_finally, try_catch.
  rewrite (bind_run _ _ _ _ _ Hg).
  destruct (finish_007 config options t result w2)
    as (w3 & r & -> & [cache ->] & _).
  destruct (observes_flush backend config t w3) as (w4 & [] & -> & _).
  by exists cache.
Qed.

Lemma structured_output_is_text_007 gen config options userPrompt w result :
  requireStructuredOutput options = true ->
  (Part007.generated backend gen config options userPrompt w).2 = Return result ->
  (Part007.createAgent backend gen config options userPrompt w).2
  = Return (StructuredResponse (toolCalls result) (JStr (text result))).
Proof.
  intros Hs Hg.
  destruct (createAgent_007_generated gen config options userPrompt w result Hg)
    as [cache ->].
  unfold Part007.format_response. by rewrite Hs.
Qed.
End Quiet.

(** With a trace supplied and a backend that throws from every method,
    the second agent throws whenever [generateText] resolves. *)
Lemma createAgent_007_rethrows backend gen config options userPrompt w result :
  (forall h c, is_Some (throws backend h c)) ->
  is_Some (trace config) -> langfuse config = false ->
  (Part007.generated backend gen config options userPrompt w).2 = Return result ->
  exists e,
    (Part007.createAgent backend gen config options userPrompt w).2 = Throw e.
Proof.
  intros Hthrows [client Ht] Hl.
  destruct (start_trace_007 backend config userPrompt w) as (w1 & t & Hs & _).
  assert (t = Some client) as ->.
  { revert Hs. unfold Part007.start_trace.
    rewrite (bind_run _ _ _ (set_cache ∅ w) tt (eq_refl _)).
    assert (obtain_trace backend config (set_cache ∅ w)
            = (set_cache ∅ w, Return (Some client))) as Ho.
    { unfold obtain_trace. by rewrite Hl, Ht. }
    rewrite (bind_run _ _ _ _ _ Ho).
    match goal with
    | |- bind ?m _ ?s = _ -> _ =>
        assert (observes m (fun _ => True)) as Hobs by auto 6 with tracing;
        destruct (Hobs s) as (? & [] & E & _)
    end.
    rewrite (bind_run _ _ _ _ _ E). by intros [= _ <-]. }
  unfold Part007.generated, Part007.createAgent.
  rewrite !(bind_run _ _ _ _ _ Hs).
  destruct (Part007.generate backend gen config options userPrompt
              (Some client) w1) as [w2 g] eqn:Hg.
  cbn [snd]. intros ->. unfold try_finally, try_catch.
  rewrite (bind_run _ _ _ _ _ Hg).
  assert (exists w3 e,
    Part007.finish backend config options (Some client) result w2
    = (w3, Throw e)) as (w3 & e & ->).
  { unfold Part007.finish. cbn [has_trace when].
    destruct (toolCalls result) as [ | c cs ].
    - cbn [for_each]. rewrite (bind_run _ _ _ w2 tt (eq_refl _)).
      unfold bind at 1, backend_call at 1. cbn.
      destruct (Hthrows (traced w2)
                  (CallGeneration "final-response" (JStr (text result))))
        as [e ->].
      by eexists _, _.
    - cbn [for_each]. unfold Part007.log_tool_call at 1.
      unfold bind at 1 2 3, backend_call at 1. cbn.
      destruct (Hthrows (traced w2)
                  (CallGeneration ("tool-call-" +:+ toolName c) (args c)))
        as [e ->].
      by eexists _, _. }
  destruct (log_agent_error_throws backend config (Some client) e w3)
    as (w4 & -> & _).
  destruct (observes_flush backend config (Some client) w4) as (w5 & [] & -> & _).
  by exists e.
Qed.

Lemma obj_get_set_eq k v l : obj_get k (obj_set k v l) = v.
Proof.
  induction l as [ | [k' v'] l IH ]; cbn.
  - by rewrite String.eqb_refl.
  - destruct (String.eqb_spec k k') as [-> | Hne]; cbn.
    + by rewrite String.eqb_refl.
    + by destruct (String.eqb_spec k k').
Qed.

Lemma obj_get_set_ne k k' v l :
  k <> k' -> obj_get k (obj_set k' v l) = obj_get k l.
Proof.
  intros Hne. induction l as [ | [k'' v''] l IH ]; cbn.
  - by destruct (String.eqb_spec k k').
  - destruct (String.eqb_spec k' k'') as [-> | Hne']; cbn.
    + by destruct (String.eqb_spec k k'').
    + by rewrite IH.
Qed.

Lemma record_skips n calls : forall acc,
  (forall c, c ∈ calls -> toolName c <> n) ->
  obj_get n (record_of calls acc) = obj_get n acc.
Proof.
  induction calls as [ | c calls IH ]; intros acc H; [ done | ].
  cbn. rewrite IH.
  - apply obj_get_set_ne. intros E.
    by apply (H c); [ apply list_elem_of_here | ].
  - intros c' Hc'. by apply H, list_elem_of_further.
Qed.

Lemma record_last before c after acc :
  (forall c', c' ∈ after -> toolName c' <> toolName c) ->
  obj_get (toolName c) (record_of (before ++ c :: after) acc) = args c.
Proof.
  intros H. unfold record_of. rewrite fold_left_app. cbn.
  fold (record_of after). rewrite record_skips by done.
  apply obj_get_set_eq.
Qed.

(** C9: without [requireStructuredOutput], whenever [generateText]
    resolves to [result], the agent returns one assistant message whose
    [tool_call] entries carry the call's arguments as [toolResults], and
    a [toolResults] record that maps each called tool name to the
    arguments of its (last) call. What the tools' [execute] returned
    appears nowhere in it. *)
Theorem unstructured_toolResults_are_args
    backend gen config options userPrompt w result :
  requireStructuredOutput options = false ->
  (Part006.generated backend gen config options userPrompt w).2 = Return result ->
  exists record,
    (Part006.createAgent backend gen config options userPrompt w).2
    = Return
        (UnstructuredResponse
           [ {| msg_role := "assistant";
                msg_content :=
                  TextContent (text result)
                    :: map (fun c => ToolCallContent (toolName c) (args c) (args c))
                         (toolCalls result) |} ]
           (Some record))
    /\ (forall before c after,
          toolCalls result = before ++ c :: after ->
          (forall c', c' ∈ after -> toolName c' <> toolName c) ->
          obj_get (toolName c) record = args c)
    /\ (forall n, (forall c, c ∈ toolCalls result -> toolName c <> n) ->
          obj_get n record = JUndefined).
Proof.
  intros Hs Hg. rewrite createAgent_006_generated, Hg.
  unfold Part006.format_response. rewrite Hs.
  eexists. split; [ reflexivity | ]. split.
  - intros before c after -> H. exact (record_last before c after [] H).
  - intros n H. exact (record_skips n (toolCalls result) [] H).
Qed.

Lemma unstructured_toolResults_are_args_witness :
  exists record,
    (Part006.createAgent quiet_backend (fun _ => once "echo" args_ab)
       (sample_config (Some client)) (sample_options false both_tools) "hi"
       empty_world).2
    = Return
        (UnstructuredResponse
           [ {| msg_role := "assistant";
                msg_content :=
                  TextContent "[object Object]"
                    :: map (fun c => ToolCallContent (toolName c) (args c) (args c))
                         [call "echo" args_ab] |} ]
           (Some record))
    /\ (forall before c after,
          [call "echo" args_ab] = before ++ c :: after ->
          (forall c', c' ∈ after -> toolName c' <> toolName c) ->
          obj_get (toolName c) record = args c)
    /\ (forall n, (forall c, c ∈ [call "echo" args_ab] -> toolName c <> n) ->
          obj_get n record = JUndefined).
Proof.
  apply (unstructured_toolResults_are_args quiet_backend
           (fun _ => once "echo" args_ab)
           (sample_config (Some client)) (sample_options false both_tools) "hi"
           empty_world
           {| text := "[object Object]"; toolCalls := [call "echo" args_ab] |});
    reflexivity.
Defined.

(** ** Runs with and without a sink *)

Lemma find_tool_wrapped backend entries client n :
  find_tool n (wrappedTools backend (Some entries) (Some client))
  = (fun tool => wrapToolWithTracing backend n tool (Some client))
      <$> find_entry n entries.
Proof.
  induction entries as [ | [n' tool] rest IH ]; [ done | ].
  unfold wrappedTools in *. cbn [map find_tool find_entry] in *.
  destruct (String.eqb_spec n n') as [-> | _]; [ done | apply IH ].
Qed.

Lemma find_tool_plain backend entries n :
  find_tool n (wrappedTools backend (Some entries) None)
  = (fun tool => tool_execute n tool) <$> find_entry n entries.
Proof.
  induction entries as [ | [n' tool] rest IH ]; [ done | ].
  unfold wrappedTools in *. cbn [map find_tool find_entry] in *.
  destruct (String.eqb_spec n n') as [-> | _]; [ done | apply IH ].
Qed.

Lemma find_entry_elem n entries tool :
  find_entry n entries = Some tool -> (n, tool) ∈ entries.
Proof.
  induction entries as [ | [n' tool'] rest IH ]; [ done | ]. cbn.
  destruct (String.eqb_spec n n') as [-> | _].
  - intros [= ->]. apply list_elem_of_here.
  - intros H. apply list_elem_of_further. auto.
Qed.

Section Simulation.
Variables (backend : Backend) (entries : list (string * Tool)).
Local Abbreviation plain := (wrappedTools backend (Some entries) None).

(** A run on the tools as configured only adds to the tool log. *)
Lemma plain_run_extends e : forall w,
  exists l, invoked (run_engine plain e w).1 = invoked w ++ l.
Proof.
  induction e as [ result | err | n a k IH ]; intros w; cbn [run_engine].
  - exists []. by rewrite app_nil_r.
  - exists []. by rewrite app_nil_r.
  - rewrite find_tool_plain.
    destruct (find_entry n entries) as [ tool | ]; cbn.
    + destruct (IH (execute tool (invoked w) a)
                  (add_invocation {| inv_tool := n; inv_args := a |} w))
        as [l Hl].
      exists ({| inv_tool := n; inv_args := a |} :: l). rewrite Hl. cbn.
      by rewrite <- app_assoc.
    + apply IH.
Qed.

(** Such a run depends on the world through the tool log alone. *)
Lemma plain_run_log_only e : forall w w',
  invoked w' = invoked w ->
  (run_engine plain e w').2 = (run_engine plain e w).2
  /\ invoked (run_engine plain e w').1 = invoked (run_engine plain e w).1.
Proof.
  induction e as [ result | err | n a k IH ]; intros w w' I; cbn [run_engine].
  - done.
  - done.
  - rewrite find_tool_plain.
    destruct (find_entry n entries) as [ tool | ]; cbn.
    + rewrite I. apply IH. cbn. by rewrite I.
    + by apply IH.
Qed.

Hypothesis quiet : forall h c, throws backend h c = None.
Hypothesis tools_succeed : forall n tool h a,
  (n, tool) ∈ entries -> exists v, execute tool h a = Return v.

(** When no call repeats, the wrapped tools behave as the configured
    ones: the invariant is that every cached key belongs to a call in
    the tool log. *)
Lemma wrapped_simulates client e : forall wp wt,
  invoked wt = invoked wp ->
  (forall k, is_Some (toolResultCache wt !! k) ->
             k ∈ invocation_key <$> invoked wt) ->
  NoDup (invocation_key <$> invoked (run_engine plain e wp).1) ->
  exists wt',
    run_engine (wrappedTools backend (Some entries) (Some client)) e wt
    = (wt', (run_engine plain e wp).2)
    /\ invoked wt' = invoked (run_engine plain e wp).1.
Proof.
  induction e as [ result | err | n a k IH ]; intros wp wt I C D;
    cbn [run_engine] in *.
  - by exists wt.
  - by exists wt.
  - rewrite find_tool_wrapped. rewrite find_tool_plain in *.
    destruct (find_entry n entries) as [ tool | ] eqn:F; cbn in *;
      [ | by apply IH ].
    destruct (tools_succeed n tool (invoked wp) a) as [v Hv];
      [ by apply find_entry_elem | ].
    rewrite Hv in *.
    assert (toolResultCache wt !! cacheKey n a = None) as Hmiss.
    { apply eq_None_not_Some. intros Hin%C. rewrite I in Hin.
      destruct (plain_run_extends (k (Return v))
                  (add_invocation {| inv_tool := n; inv_args := a |} wp))
        as [l Hl].
      rewrite Hl in D. cbn in D.
      rewrite !fmap_app in D. apply NoDup_app in D as (D & _ & _).
      apply NoDup_app in D as (_ & D & _).
      apply (D _ Hin). apply list_elem_of_here. }
    destruct (wrapped_miss_ok backend n tool a client wt v)
      as (wt1 & -> & I1 & C1); [ done | apply quiet | by rewrite I | ].
    apply IH.
    + rewrite I1, I. done.
    + intros key. rewrite C1, I1, fmap_app.
      destruct (decide (key = cacheKey n a)) as [-> | Hne].
      * intros _. apply elem_of_app. right. apply list_elem_of_here.
      * rewrite lookup_insert_ne by done. intros H%C.
        apply elem_of_app. by left.
    + done.
Qed.
End Simulation.

(** C8 (amended): tools are wrapped, and their results memoised, only
    when a trace is in use; with no sink they are handed to the engine as
    configured. The two configurations return the same value and run the
    tools' own [execute] on the same sequence of calls provided the
    backend does not throw, no tool's [execute] throws, the engine's
    strategy does not depend on the telemetry option, and the run without
    a sink makes no two calls with the same cache key. *)
Theorem sink_transparent_without_repeats
    backend gen config options userPrompt w :
  (forall h c, throws backend h c = None) ->
  (forall t, gen (Part006.request config options userPrompt t)
             = gen (Part006.request config options userPrompt None)) ->
  (forall n tool h a,
     (n, tool) ∈ default [] (tools options) ->
     exists v, execute tool h a = Return v) ->
  let without :=
    Part006.createAgent backend gen (detach config) options userPrompt w in
  let attached := Part006.createAgent backend gen config options userPrompt w in
  NoDup (invocation_key <$> invoked without.1) ->
  attached.2 = without.2 /\ invoked attached.1 = invoked without.1.
Proof.
  intros quiet telemetry succeed without attached D.
  subst without attached.
  set (entries := default [] (tools options)) in *.
  assert (forall t, wrappedTools backend (tools options) t
                    = wrappedTools backend (Some entries) t) as Htools.
  { intros t. unfold entries. by destruct (tools options), t. }
  (* the run without a sink *)
  assert (Part006.start_trace backend (detach config) userPrompt w
          = (set_cache ∅ w, Return None)) as Hs0 by done.
  destruct (Part006.generate backend gen (detach config) options userPrompt
              None (set_cache ∅ w)) as [wp g] eqn:Hg0.
  destruct (createAgent_006_outcome _ _ _ _ _ _ _ _ _ _ Hs0 Hg0)
    as (wp' & E0 & I0).
  rewrite E0 in *. cbn [fst snd] in *. rewrite I0 in *.
  (* the run with the sink *)
  destruct (start_trace_006 backend config userPrompt w)
    as (w1 & t & Hs & I1 & C1).
  unfold Part006.generate in Hg0.
  change (Part006.request (detach config) options userPrompt None)
    with (Part006.request config options userPrompt None) in Hg0.
  rewrite Htools in Hg0.
  assert (exists wt,
    Part006.generate backend gen config options userPrompt t w1 = (wt, g)
    /\ invoked wt = invoked wp) as (wt & Hg & It).
  { unfold Part006.generate. rewrite telemetry, Htools.
    destruct t as [ client | ].
    - destruct (wrapped_simulates backend entries quiet succeed client
                  (gen (Part006.request config options userPrompt None))
                  (set_cache ∅ w) w1) as (wt & Hwt & It).
      + done.
      + intros k. rewrite C1, lookup_empty. by intros [? ?].
      + by rewrite Hg0.
      + exists wt. by rewrite Hwt, It, Hg0.
    - destruct (plain_run_log_only backend entries
                  (gen (Part006.request config options userPrompt None))
                  (set_cache ∅ w) w1 I1) as [Hr Hi].
      rewrite Hg0 in Hr, Hi. cbn [fst snd] in Hr, Hi.
      destruct (run_engine _ _ w1) as [wt g']. cbn [fst snd] in Hr, Hi.
      exists wt. by rewrite Hr. }
  destruct (createAgent_006_outcome _ _ _ _ _ _ _ _ _ _ Hs Hg)
    as (wt' & -> & It').
  cbn [fst snd]. by rewrite It', It.
Qed.

Lemma sink_transparent_without_repeats_witness :
  let gen := fun _ : GenRequest => once "echo" (JStr "hello") in
  let options := sample_options false [("echo", echo_tool)] in
  let without :=
    Part006.createAgent quiet_backend gen (detach (sample_config (Some client)))
      options "hi" empty_world in
  let attached :=
    Part006.createAgent quiet_backend gen (sample_config (Some client))
      options "hi" empty_world in
  attached.2 = without.2 /\ invoked attached.1 = invoked without.1.
Proof.
  apply (sink_transparent_without_repeats quiet_backend
           (fun _ => once "echo" (JStr "hello")) (sample_config (Some client))
           (sample_options false [("echo", echo_tool)]) "hi" empty_world).
  - reflexivity.
  - reflexivity.
  - intros n tool h a H. apply list_elem_of_singleton in H.
    injection H as -> ->. by eexists.
  - vm_compute. apply NoDup_singleton.
Defined.

(** C8 as stated fails: an engine that makes the same call twice runs the
    tool's [execute] once with a sink attached and twice without. *)
Lemma repeated_call_is_memoised_only_with_a_sink :
  let gen := fun _ : GenRequest => twice "echo" (JStr "hello") in
  let options := sample_options false both_tools in
  let attached :=
    Part006.createAgent quiet_backend gen (sample_config (Some client))
      options "hi" empty_world in
  let without :=
    Part006.createAgent quiet_backend gen (sample_config None)
      options "hi" empty_world in
  length (invoked attached.1) = 1
  /\ length (invoked without.1) = 2
  /\ invoked attached.1 <> invoked without.1.
Proof. cbn zeta. repeat split; discriminate. Qed.

(** ** The orchestrator *)

Section Orchestrator.
Variable agents : Agents.

Lemma run_stage_yields stage agent input results trail :
  stage_yields agent input results ->
  run_stage stage agent input trail
  = (trail ++ [(stage, input)], Return results).
Proof.
  intros (streamed & Ha & He & Hr). unfold run_stage, bind.
  by rewrite Ha, He, Hr.
Qed.

Lemma run_stage_trail stage agent input trail :
  (run_stage stage agent input trail).1 = trail ++ [(stage, input)].
Proof.
  unfold run_stage, bind. destruct (agent input) as [streamed | e]; [ | done ].
  by destruct (textStreamError streamed).
Qed.

Lemma is_str_false v lit : v <> JStr lit -> is_str v lit = false.
Proof.
  intros H. destruct v; try done. cbn.
  destruct (String.eqb_spec s lit) as [-> | ]; done.
Qed.

Lemma member_truthy {S} v k (s : S) :
  truthy v = true -> member v k s = (s, Return (opt_get v k)).
Proof. by destruct v. Qed.

Lemma select_route_truthy results : truthy (select_route results) = true.
Proof.
  unfold select_route, js_or.
  destruct (truthy (first_result results)) eqn:E; [ exact E | reflexivity ].
Qed.

(** The orchestrator after a router stage that delivered its results. *)
Lemma orchestrate_routed userInput trail results :
  stage_yields (routerAgent agents) [user_message userInput "1"] results ->
  let route := select_route results in
  let result :=
    {| action := opt_get route "action"; platform := opt_get route "platform";
       references := None; strategy := None;
       formattedContent := None; publishedContent := None |} in
  let trail1 := trail ++ [(Router, [user_message userInput "1"])] in
  orchestrateAgents agents userInput trail
  = if is_str (opt_get route "action") "create_content" then
      create_content agents userInput route result trail1
    else if is_str (opt_get route "action") "create_strategy" then
      create_strategy agents route result trail1
    else if is_str (opt_get route "action") "manage_content" then
      (trail1, Return (manage_content result))
    else (trail1, Return result).
Proof.
  intros Hr route result trail1. unfold orchestrateAgents.
  rewrite (bind_run _ _ _ _ _ (run_stage_yields _ _ _ _ _ Hr)).
  fold route.
  rewrite (bind_run _ _ _ _ _ (member_truthy route "action" _
                                  (select_route_truthy results))).
  rewrite (bind_run _ _ _ _ _ (member_truthy route "platform" _
                                  (select_route_truthy results))).
  fold result. by repeat destruct (is_str _ _).
Qed.

(** C10: when the router stage delivers a result whose [action] is
    present but is none of the three known actions, [orchestrateAgents]
    returns, without throwing and without calling any further stage,
    the result that holds the route's [action] and [platform] and
    nothing else. *)
Theorem unknown_action_returns_route userInput trail results :
  stage_yields (routerAgent agents) [user_message userInput "1"] results ->
  let route := first_result results in
  opt_get route "action" <> JUndefined ->
  opt_get route "action" <> JStr "create_content" ->
  opt_get route "action" <> JStr "create_strategy" ->
  opt_get route "action" <> JStr "manage_content" ->
  orchestrateAgents agents userInput trail
  = (trail ++ [(Router, [user_message userInput "1"])],
     Return {| action := opt_get route "action";
               platform := opt_get route "platform";
               references := None; strategy := None;
               formattedContent := None; publishedContent := None |}).
Proof.
  intros Hr route Hpresent H1 H2 H3.
  assert (select_route results = route) as Hsel.
  { unfold select_route, js_or. fold route.
    destruct route; try done. }
  rewrite (orchestrate_routed _ _ _ Hr). cbn zeta. rewrite Hsel.
  by rewrite !is_str_false.
Qed.

Lemma create_content_returns userInput route result trail :
  truthy route = true ->
  stage_succeeds (researchAgent agents) ->
  stage_succeeds (strategyAgent agents) ->
  stage_succeeds (formatterAgent agents) ->
  stage_succeeds (publisherAgent agents) ->
  exists trail' final,
    create_content agents userInput route result trail = (trail', Return final)
    /\ action final = action result
    /\ platform final = platform result
    /\ fst <$> trail'
       = (fst <$> trail) ++ [Research; Strategy; Formatter; Publisher]
    /\ (Strategy,
        [user_message
           ("Create a strategy for " +:+ js_to_string (opt_get route "platform")
              +:+ " about: " +:+ userInput) "3"])
       ∈ trail'.
Proof.
  intros Htruthy Hres Hstr Hfmt Hpub. unfold create_content.
  destruct (Hres [user_message ("Research this topic: " +:+ userInput) "2"])
    as [v1 H1].
  rewrite (bind_run _ _ _ _ _ (run_stage_yields _ _ _ _ _ H1)).
  rewrite (bind_run _ _ _ _ _ (member_truthy route "platform" _ Htruthy)).
  destruct (Hstr [user_message
                    ("Create a strategy for "
                       +:+ js_to_string (opt_get route "platform")
                       +:+ " about: " +:+ userInput) "3"]) as [v2 H2].
  rewrite (bind_run _ _ _ _ _ (run_stage_yields _ _ _ _ _ H2)).
  destruct (Hfmt (formatter_input userInput (opt_get route "platform")
                    (first_result v2))) as [v3 H3].
  rewrite (bind_run _ _ _ _ _ (run_stage_yields _ _ _ _ _ H3)).
  destruct (Hpub (publisher_input (opt_get route "platform") (first_result v3)))
    as [v4 H4].
  rewrite (bind_run _ _ _ _ _ (run_stage_yields _ _ _ _ _ H4)).
  eexists _, _. split; [ reflexivity | ]. cbn [action platform].
  repeat split.
  - rewrite !fmap_app. cbn. by rewrite <- !app_assoc.
  - rewrite !elem_of_app. left. left. right. apply list_elem_of_here.
Qed.

Lemma create_strategy_returns route result trail :
  truthy route = true ->
  stage_succeeds (strategyAgent agents) ->
  exists trail' final,
    create_strategy agents route result trail = (trail', Return final)
    /\ action final = action result
    /\ platform final = platform result.
Proof.
  intros Htruthy Hstr. unfold create_strategy.
  rewrite (bind_run _ _ _ _ _ (member_truthy route "platform" _ Htruthy)).
  destruct (Hstr [user_message
                    ("Create a content strategy for "
                       +:+ js_to_string (opt_get route "platform")) "6"])
    as [v H].
  rewrite (bind_run _ _ _ _ _ (run_stage_yields _ _ _ _ _ H)).
  by eexists _, _.
Qed.

(** C5 (amended): when the router stage delivers and none of the later
    stages fails, [orchestrateAgents] returns without throwing. If the
    router delivered no usable first result (no tool results, an empty
    list, or a falsy [result]), it takes the route
    [{ action: "create_content", platform: "blog" }] and runs the
    research, strategy, formatter and publisher stages for the blog
    platform. A first result that is present is used as it is: the
    returned [action] and [platform] are its own, whatever they are. *)
Theorem route_fallback userInput trail results :
  stage_yields (routerAgent agents) [user_message userInput "1"] results ->
  stage_succeeds (researchAgent agents) ->
  stage_succeeds (strategyAgent agents) ->
  stage_succeeds (formatterAgent agents) ->
  stage_succeeds (publisherAgent agents) ->
  exists trail' final,
    orchestrateAgents agents userInput trail = (trail', Return final)
    /\ (truthy (first_result results) = false ->
        action final = JStr "create_content"
        /\ platform final = JStr "blog"
        /\ fst <$> trail'
           = (fst <$> trail)
               ++ [Router; Research; Strategy; Formatter; Publisher]
        /\ (Strategy,
            [user_message
               ("Create a strategy for blog about: " +:+ userInput) "3"])
           ∈ trail')
    /\ (truthy (first_result results) = true ->
        action final = opt_get (first_result results) "action"
        /\ platform final = opt_get (first_result results) "platform").
Proof.
  intros Hr Hres Hstr Hfmt Hpub.
  rewrite (orchestrate_routed _ _ _ Hr). cbn zeta.
  pose proof (select_route_truthy results) as Htruthy.
  unfold select_route, js_or in *.
  destruct (truthy (first_result results)) eqn:E.
  - set (route := first_result results) in *.
    destruct (is_str (opt_get route "action") "create_content").
    { destruct (create_content_returns userInput route
                  {| action := opt_get route "action";
                     platform := opt_get route "platform";
                     references := None; strategy := None;
                     formattedContent := None; publishedContent := None |}
                  (trail ++ [(Router, [user_message userInput "1"])]))
        as (trail' & final & -> & Ha & Hp & _); try done.
      exists trail', final. by repeat split. }
    destruct (is_str (opt_get route "action") "create_strategy").
    { destruct (create_strategy_returns route
                  {| action := opt_get route "action";
                     platform := opt_get route "platform";
                     references := None; strategy := None;
                     formattedContent := None; publishedContent := None |}
                  (trail ++ [(Router, [user_message userInput "1"])]))
        as (trail' & final & -> & Ha & Hp); try done.
      exists trail', final. by repeat split. }
    destruct (is_str (opt_get route "action") "manage_content");
      eexists _, _; by repeat split.
  - cbn [default_route opt_get obj_get String.eqb Ascii.eqb Bool.eqb is_str].
    destruct (create_content_returns userInput default_route
                {| action := JStr "create_content"; platform := JStr "blog";
                   references := None; strategy := None;
                   formattedContent := None; publishedContent := None |}
                (trail ++ [(Router, [user_message userInput "1"])]))
      as (trail' & final & -> & Ha & Hp & Hstages & Hmsg); try done.
    exists trail', final. split; [ done | ]. split; [ | done ].
    intros _. repeat split; try done.
    rewrite Hstages, fmap_app. cbn. by rewrite <- app_assoc.
Qed.
(** C6 (amended): on the [create_content] path, once the research and
    strategy stages have delivered, the formatter stage is called with
    the single message whose content is the JSON text of
    [{ content, platform, tone }], where [tone] is the [tone] of the
    strategy result when that is truthy, and ["professional"] when the
    strategy result has no [tone] or a falsy one. *)
Theorem formatter_receives_tone
    userInput trail results research strategy_results :
  stage_yields (routerAgent agents) [user_message userInput "1"] results ->
  let route := select_route results in
  opt_get route "action" = JStr "create_content" ->
  stage_yields (researchAgent agents)
    [user_message ("Research this topic: " +:+ userInput) "2"] research ->
  stage_yields (strategyAgent agents)
    [user_message
       ("Create a strategy for " +:+ js_to_string (opt_get route "platform")
          +:+ " about: " +:+ userInput) "3"] strategy_results ->
  let tone := opt_get (first_result strategy_results) "tone" in
  (Formatter,
   [user_message
      (JSON_stringify_object
         [ ("content", JStr userInput);
           ("platform", opt_get route "platform");
           ("tone", if truthy tone then tone else JStr "professional") ])
      "4"])
  ∈ (orchestrateAgents agents userInput trail).1.
Proof.
  intros Hr route Hact H1 H2 tone.
  rewrite (orchestrate_routed _ _ _ Hr). cbn zeta. fold route.
  rewrite Hact. cbn [is_str String.eqb Ascii.eqb Bool.eqb].
  unfold create_content.
  rewrite (bind_run _ _ _ _ _ (run_stage_yields _ _ _ _ _ H1)).
  rewrite (bind_run _ _ _ _ _ (member_truthy route "platform" _
                                  (select_route_truthy results))).
  rewrite (bind_run _ _ _ _ _ (run_stage_yields _ _ _ _ _ H2)).
  match goal with
  | |- _ ∈ (bind (run_stage Formatter ?ag ?inp) ?k ?tr).1 =>
      pose proof (run_stage_trail Formatter ag inp tr) as Ht;
      destruct (run_stage Formatter ag inp tr) as [tr4 [v3 | e3]] eqn:E3
  end; cbn [fst] in Ht.
  - rewrite (bind_run _ _ _ _ _ E3).
    match goal with
    | |- _ ∈ (bind (run_stage Publisher ?ag ?inp) ?k ?tr).1 =>
        pose proof (run_stage_trail Publisher ag inp tr) as Ht';
        destruct (run_stage Publisher ag inp tr) as [tr5 [v4 | e4]] eqn:E4
    end; cbn [fst] in Ht'.
    + rewrite (bind_run _ _ _ _ _ E4). cbn [ret fst]. rewrite Ht', Ht.
      rewrite !elem_of_app. left. right. apply list_elem_of_here.
    + rewrite (bind_throw _ _ _ _ _ E4). cbn [fst]. rewrite Ht', Ht.
      rewrite !elem_of_app. left. right. apply list_elem_of_here.
  - rewrite (bind_throw _ _ _ _ _ E3). cbn [fst]. rewrite Ht.
    rewrite !elem_of_app. right. apply list_elem_of_here.
Qed.
End Orchestrator.

Lemma stage_returning_yields v input : stage_yields (stage_returning v) input v.
Proof. by eexists. Qed.

Lemma stage_returning_succeeds v : stage_succeeds (stage_returning v).
Proof. intros input. exists v. apply stage_returning_yields. Qed.

Lemma unknown_action_returns_route_witness :
  let results :=
    tool_result (JObj [("action", JStr "archive"); ("platform", JStr "blog")]) in
  orchestrateAgents (sample_agents results (JArr [])) "Archive it" []
  = ([] ++ [(Router, [user_message "Archive it" "1"])],
     Return {| action := opt_get (first_result results) "action";
               platform := opt_get (first_result results) "platform";
               references := None; strategy := None;
               formattedContent := None; publishedContent := None |}).
Proof.
  apply (unknown_action_returns_route
           (sample_agents
              (tool_result
                 (JObj [("action", JStr "archive"); ("platform", JStr "blog")]))
              (JArr []))
           "Archive it" []
           (tool_result
              (JObj [("action", JStr "archive"); ("platform", JStr "blog")]))).
  - apply stage_returning_yields.
  - discriminate.
  - discriminate.
  - discriminate.
  - discriminate.
Defined.

Lemma route_fallback_witness :
  exists trail' final,
    orchestrateAgents
      (sample_agents (JArr []) (tool_result (JObj [("tone", JStr "casual")])))
      "AI trends" []
    = (trail', Return final)
    /\ (truthy (first_result (JArr [])) = false ->
        action final = JStr "create_content"
        /\ platform final = JStr "blog"
        /\ fst <$> trail'
           = (fst <$> ([] : Trail))
               ++ [Router; Research; Strategy; Formatter; Publisher]
        /\ (Strategy,
            [user_message
               ("Create a strategy for blog about: " +:+ "AI trends") "3"])
           ∈ trail')
    /\ (truthy (first_result (JArr [])) = true ->
        action final = opt_get (first_result (JArr [])) "action"
        /\ platform final = opt_get (first_result (JArr [])) "platform").
Proof.
  apply (route_fallback
           (sample_agents (JArr []) (tool_result (JObj [("tone", JStr "casual")])))
           "AI trends" [] (JArr [])).
  - apply stage_returning_yields.
  - apply stage_returning_succeeds.
  - apply stage_returning_succeeds.
  - apply stage_returning_succeeds.
  - apply stage_returning_succeeds.
Defined.

(** C5 as stated fails: a router result without an [action] is not
    replaced by the default route; no stage runs and the result has an
    undefined action. *)
Lemma missing_action_is_not_defaulted :
  orchestrateAgents
    (sample_agents (tool_result (JObj [("platform", JStr "twitter")]))
       (tool_result (JObj [("tone", JStr "casual")])))
    "Write something" []
  = ([(Router, [user_message "Write something" "1"])],
     Return {| action := JUndefined; platform := JStr "twitter";
               references := None; strategy := None;
               formattedContent := None; publishedContent := None |}).
Proof. reflexivity. Qed.

Lemma formatter_receives_tone_witness :
  let route :=
    JObj [("action", JStr "create_content"); ("platform", JStr "linkedin")] in
  let tone := JStr "casual" in
  (Formatter,
   [user_message
      (JSON_stringify_object
         [ ("content", JStr "AI trends");
           ("platform", opt_get route "platform");
           ("tone", if truthy tone then tone else JStr "professional") ])
      "4"])
  ∈ (orchestrateAgents
       (sample_agents (tool_result route)
          (tool_result (JObj [("tone", JStr "casual")])))
       "AI trends" []).1.
Proof.
  apply (formatter_receives_tone
           (sample_agents
              (tool_result
                 (JObj [("action", JStr "create_content");
                        ("platform", JStr "linkedin")]))
              (tool_result (JObj [("tone", JStr "casual")])))
           "AI trends" []
           (tool_result
              (JObj [("action", JStr "create_content");
                     ("platform", JStr "linkedin")]))
           (tool_result (JObj [("references", JArr [])]))
           (tool_result (JObj [("tone", JStr "casual")]))).
  - apply stage_returning_yields.
  - reflexivity.
  - apply stage_returning_yields.
  - apply stage_returning_yields.
Defined.

(** C6 as stated fails: the strategy result has a [tone] field, the empty
    string, and the formatter is sent ["professional"], not that tone. *)
Lemma empty_tone_is_replaced :
  let strategy_result := JObj [("tone", JStr "")] in
  let run :=
    orchestrateAgents
      (sample_agents
         (tool_result (JObj [("action", JStr "create_content");
                             ("platform", JStr "blog")]))
         (tool_result strategy_result))
      "AI trends" [] in
  let sent tone :=
    (Formatter,
     [user_message
        (JSON_stringify_object
           [("content", JStr "AI trends"); ("platform", JStr "blog");
            ("tone", tone)]) "4"]) in
  opt_get strategy_result "tone" = JStr ""
  /\ sent (JStr "professional") ∈ run.1
  /\ sent (JStr "") ∉ run.1.
Proof.
  cbn zeta. split; [ reflexivity | ]. split.
  - vm_compute. do 3 apply list_elem_of_further. apply list_elem_of_here.
  - vm_compute. intros H.
    repeat (apply elem_of_cons in H as [H | H]; [ discriminate H | ]).
    by apply elem_of_nil in H.
Qed.

(* ===================================================================== *)
(** * Part III: further properties of the code                            *)
(* ===================================================================== *)

(** ** Cache keys *)

Lemma json_image_obj l : json_image (JObj l) = JObj (kept_props l).
Proof. reflexivity. Qed.

Lemma render_json_image v : render (json_image v) = render v.
Proof.
  induction v as [ | | b | z | s | l IH | l IH ] using JsValue_nested_ind;
    try reflexivity.
  - cbn [json_image]. rewrite !render_arr. do 2 f_equal.
    induction IH as [ | x l Hx _ IHl ]; [ done | ].
    destruct l as [ | y l ]; cbn [map render_elems] in *; [ done | ].
    by rewrite Hx, IHl.
  - rewrite json_image_obj, !render_obj. do 2 f_equal.
    generalize true.
    induction IH as [ | [k x] l Hx _ IHl ]; intros b; [ done | ].
    cbn [snd] in Hx.
    destruct x; cbn [kept_props render_members]; rewrite ?IHl; try done;
      cbn [json_image] in Hx |- *; by rewrite ?Hx.
Qed.

Lemma is_json_image v : is_json (json_image v) = true.
Proof.
  induction v as [ | | b | z | s | l IH | l IH ] using JsValue_nested_ind;
    try reflexivity.
  - cbn [json_image is_json].
    induction IH as [ | x l Hx _ IHl ]; [ done | ].
    cbn. by rewrite Hx, IHl.
  - rewrite json_image_obj. cbn [is_json].
    induction IH as [ | [k x] l Hx _ IHl ]; [ done | ].
    cbn [snd] in Hx.
    destruct x; cbn [kept_props forallb snd]; rewrite ?IHl; try done;
      by rewrite Hx.
Qed.

Lemma cacheKey_json_image n a :
  a <> JUndefined -> cacheKey n (json_image a) = cacheKey n a.
Proof.
  intros Ha. unfold cacheKey, JSON_stringify_object. f_equal.
  rewrite !render_obj. do 2 f_equal.
  pose proof (render_json_image a) as Hr.
  destruct a; try done; cbn [render_members]; by rewrite ?Hr.
Qed.

(** X1: two tool calls whose arguments are not [undefined] have the same
    cache key exactly when the tool names are equal and the arguments
    have the same JSON image, that is, are equal once properties holding
    [undefined] are dropped and [undefined] array elements are read as
    [null]. Calls that differ only in such properties share one cache
    entry. *)
Theorem cache_key_equality n1 a1 n2 a2 :
  a1 <> JUndefined -> a2 <> JUndefined ->
  cacheKey n1 a1 = cacheKey n2 a2 <-> n1 = n2 /\ json_image a1 = json_image a2.
Proof.
  intros H1 H2.
  rewrite <- (cacheKey_json_image n1 a1), <- (cacheKey_json_image n2 a2) by done.
  split.
  - apply cacheKey_inj; apply is_json_image.
  - by intros [-> ->].
Qed.

Lemma cache_key_equality_witness :
  cacheKey "search" (JObj [("q", JStr "ai"); ("page", JUndefined)])
  = cacheKey "search" (JObj [("q", JStr "ai")])
  <-> "search" = "search"
      /\ json_image (JObj [("q", JStr "ai"); ("page", JUndefined)])
         = json_image (JObj [("q", JStr "ai")]).
Proof.
  apply (cache_key_equality "search"
           (JObj [("q", JStr "ai"); ("page", JUndefined)]) "search"
           (JObj [("q", JStr "ai")])); discriminate.
Defined.

(** ** Flushing *)

(** X2: [ensureTraceFlushed] never throws, whatever the backend does. It
    attempts the flush of the Langfuse client when there is one, and then
    the flush of the trace when the trace has [flushAsync], the second
    also when the first has failed; it runs no tool and leaves the cache
    alone. *)
Theorem ensureTraceFlushed_attempts_every_flush backend langfuse t w :
  exists w',
    ensureTraceFlushed backend langfuse t w = (w', Return tt)
    /\ traced w' = traced w ++ flush_calls langfuse t
    /\ invoked w' = invoked w
    /\ toolResultCache w' = toolResultCache w.
Proof.
  unfold ensureTraceFlushed, flush_calls.
  destruct langfuse, t as [ [ [] ] | ]; cbn;
    unfold safeTraceOperation, try_catch, bind, backend_call, ret,
      console_warn, modify_world; cbn;
    split_throws; eexists; repeat split; cbn;
    rewrite <- ?app_assoc, ?app_nil_r; reflexivity.
Qed.

Lemma flush_on_exit_traced backend config t w :
  isServerless config || (createNewTrace config && langfuse config) = true ->
  exists w',
    flush_on_exit backend config t w = (w', Return tt)
    /\ traced w' = traced w ++ flush_calls (langfuse config) t.
Proof.
  intros Hc. unfold flush_on_exit. rewrite Hc. cbn [when].
  unfold ensureTraceFlushed, flush_calls.
  destruct (langfuse config), t as [ [ [] ] | ]; cbn;
    unfold safeTraceOperation, try_catch, bind, backend_call, ret,
      console_warn, modify_world; cbn;
    split_throws; eexists; repeat split; cbn;
    rewrite <- ?app_assoc, ?app_nil_r; reflexivity.
Qed.

(** X3: when the configuration is serverless, or asks for a new trace
    and has a Langfuse client, both agents end every call, whether it
    returns or throws, with the flush calls of [ensureTraceFlushed] on
    the trace the call worked with: these are the last calls the backend
    receives. *)
Theorem agents_flush_on_every_exit backend gen config options userPrompt w :
  isServerless config || (createNewTrace config && langfuse config) = true ->
  (exists t before,
     (Part006.start_trace backend config userPrompt w).2 = Return t
     /\ traced (Part006.createAgent backend gen config options userPrompt w).1
        = before ++ flush_calls (langfuse config) t)
  /\ (exists t before,
        (Part007.start_trace backend config userPrompt w).2 = Return t
        /\ traced (Part007.createAgent backend gen config options userPrompt w).1
           = before ++ flush_calls (langfuse config) t).
Proof.
  intros Hc. split.
  - destruct (start_trace_006 backend config userPrompt w) as (w1 & t & Hs & _).
    exists t. unfold Part006.createAgent.
    rewrite (bind_run _ _ _ _ _ Hs), Hs. unfold try_finally.
    destruct (try_catch _ _ w1) as [w2 c].
    destruct (flush_on_exit_traced backend config t w2 Hc) as (w3 & -> & Htr).
    exists (traced w2). split; [ done | ]. by destruct c.
  - destruct (start_trace_007 backend config userPrompt w) as (w1 & t & Hs & _).
    exists t. unfold Part007.createAgent.
    rewrite (bind_run _ _ _ _ _ Hs), Hs. unfold try_finally.
    destruct (try_catch _ _ w1) as [w2 c].
    destruct (flush_on_exit_traced backend config t w2 Hc) as (w3 & -> & Htr).
    exists (traced w2). split; [ done | ]. by destruct c.
Qed.

Lemma agents_flush_on_every_exit_witness :
  (exists t before,
     (Part006.start_trace quiet_backend serverless_config "hi" empty_world).2
     = Return t
     /\ traced (Part006.createAgent quiet_backend
                  (fun _ => once "echo" (JStr "hello")) serverless_config
                  (sample_options false both_tools) "hi" empty_world).1
        = before ++ flush_calls (langfuse serverless_config) t)
  /\ (exists t before,
        (Part007.start_trace quiet_backend serverless_config "hi" empty_world).2
        = Return t
        /\ traced (Part007.createAgent quiet_backend
                     (fun _ => once "echo" (JStr "hello")) serverless_config
                     (sample_options false both_tools) "hi" empty_world).1
           = before ++ flush_calls (langfuse serverless_config) t).
Proof.
  apply (agents_flush_on_every_exit quiet_backend
           (fun _ => once "echo" (JStr "hello")) serverless_config
           (sample_options false both_tools) "hi" empty_world).
  reflexivity.
Defined.

(** ** The agents as a whole *)


(** X5: when [generateText] rejects, the second agent throws that same
    error, whatever the trace backend does while the error is logged
    and the traces are flushed. *)
Theorem second_agent_rethrows_generation_error
    backend gen config options userPrompt w e :
  (Part007.generated backend gen config options userPrompt w).2 = Throw e ->
  (Part007.createAgent backend gen config options userPrompt w).2 = Throw e.
Proof.
  destruct (start_trace_007 backend config userPrompt w) as (w1 & t & Hs & _).
  unfold Part007.generated, Part007.createAgent.
  rewrite !(bind_run _ _ _ _ _ Hs).
  destruct (Part007.generate backend gen config options userPrompt t w1)
    as [w2 g] eqn:Hg.
  cbn [snd]. intros ->. unfold try_finally, try_catch.
  rewrite (bind_throw _ _ _ _ _ Hg).
  destruct (log_agent_error_throws backend config t e w2) as (w3 & -> & _).
  by destruct (observes_flush backend config t w3) as (w4 & [] & -> & _).
Qed.

Lemma second_agent_rethrows_generation_error_witness :
  (Part007.createAgent broken_backend (fun _ => Reject "model unavailable")
     (sample_config (Some client)) (sample_options false both_tools) "hi"
     empty_world).2
  = Throw "model unavailable".
Proof.
  apply (second_agent_rethrows_generation_error broken_backend
           (fun _ => Reject "model unavailable") (sample_config (Some client))
           (sample_options false both_tools) "hi" empty_world
           "model unavailable").
  reflexivity.
Defined.

(** X6: every agent call starts from an empty tool-result cache, in
    either source file: what an earlier call cached has no effect on the
    call, neither on its outcome nor on the tools it runs or the backend
    calls it makes. *)
Theorem agent_starts_from_an_empty_cache
    backend gen config options userPrompt w cache :
  Part006.createAgent backend gen config options userPrompt (set_cache cache w)
  = Part006.createAgent backend gen config options userPrompt w
  /\ Part007.createAgent backend gen config options userPrompt (set_cache cache w)
     = Part007.createAgent backend gen config options userPrompt w.
Proof.
  split.
  - assert (Part006.start_trace backend config userPrompt (set_cache cache w)
            = Part006.start_trace backend config userPrompt w) as Hs.
    { unfold Part006.start_trace.
      by rewrite (bind_run _ _ (set_cache cache w) (set_cache ∅ w) tt (eq_refl _)),
        (bind_run _ _ w (set_cache ∅ w) tt (eq_refl _)). }
    unfold Part006.createAgent, bind at 1 3. by rewrite Hs.
  - assert (Part007.start_trace backend config userPrompt (set_cache cache w)
            = Part007.start_trace backend config userPrompt w) as Hs.
    { unfold Part007.start_trace.
      by rewrite (bind_run _ _ (set_cache cache w) (set_cache ∅ w) tt (eq_refl _)),
        (bind_run _ _ w (set_cache ∅ w) tt (eq_refl _)). }
    unfold Part007.createAgent, bind at 1 3. by rewrite Hs.
Qed.

Lemma plain_run_frame backend tools e : forall w,
  let w' := (run_engine (wrappedTools backend tools None) e w).1 in
  traced w' = traced w /\ console w' = console w
  /\ toolResultCache w' = toolResultCache w.
Proof.
  induction e as [ result | err | n a next IH ]; intros w; cbn [run_engine];
    [ done | done | ].
  destruct tools as [ entries | ].
  - rewrite find_tool_plain.
    destruct (find_entry n entries) as [ tool | ]; cbn; [ | apply IH ].
    by destruct (IH (execute tool (invoked w) a)
                   (add_invocation {| inv_tool := n; inv_args := a |} w))
      as (-> & -> & ->).
  - unfold wrappedTools. cbn. apply IH.
Qed.

Lemma no_sink_start_006 backend config userPrompt w :
  trace config = None -> langfuse config = false ->
  Part006.start_trace backend config userPrompt w = (set_cache ∅ w, Return None).
Proof.
  intros Ht Hl. unfold Part006.start_trace, obtain_trace. by rewrite Ht, Hl.
Qed.

Lemma no_sink_start_007 backend config userPrompt w :
  trace config = None -> langfuse config = false ->
  Part007.start_trace backend config userPrompt w = (set_cache ∅ w, Return None).
Proof.
  intros Ht Hl. unfold Part007.start_trace, obtain_trace. by rewrite Ht, Hl.
Qed.

Lemma no_sink_flush backend config w :
  langfuse config = false ->
  flush_on_exit backend config None w = (w, Return tt).
Proof.
  intros Hl. unfold flush_on_exit, ensureTraceFlushed. rewrite Hl.
  by destruct (isServerless config), (createNewTrace config).
Qed.

(** X7: an agent configured with neither a trace nor a Langfuse client
    never calls the trace backend and writes nothing to the console, in
    either source file, whether the call returns or throws. *)
Theorem agent_without_sink_is_silent backend gen config options userPrompt w :
  trace config = None -> langfuse config = false ->
  let first := (Part006.createAgent backend gen config options userPrompt w).1 in
  let second := (Part007.createAgent backend gen config options userPrompt w).1 in
  (traced first = traced w /\ console first = console w)
  /\ (traced second = traced w /\ console second = console w).
Proof.
  intros Ht Hl. cbn zeta. split.
  - unfold Part006.createAgent.
    rewrite (bind_run _ _ _ _ _ (no_sink_start_006 backend _ userPrompt w Ht Hl)).
    unfold try_finally, try_catch, bind, Part006.generate.
    pose proof (plain_run_frame backend (tools options)
                  (gen (Part006.request config options userPrompt None))
                  (set_cache ∅ w)) as (H1 & H2 & _).
    destruct (run_engine _ _ (set_cache ∅ w)) as [w2 [result | e]];
      cbn in H1, H2 |- *; rewrite no_sink_flush by done; cbn; by rewrite H1, H2.
  - unfold Part007.createAgent.
    rewrite (bind_run _ _ _ _ _ (no_sink_start_007 backend _ userPrompt w Ht Hl)).
    unfold try_finally, try_catch, bind, Part007.generate.
    pose proof (plain_run_frame backend (tools options)
                  (gen (Part007.request config options userPrompt None))
                  (set_cache ∅ w)) as (H1 & H2 & _).
    destruct (run_engine _ _ (set_cache ∅ w)) as [w2 [result | e]];
      cbn in H1, H2 |- *; rewrite no_sink_flush by done; cbn; by rewrite H1, H2.
Qed.

Lemma agent_without_sink_is_silent_witness :
  let first :=
    (Part006.createAgent broken_backend (fun _ => twice "echo" (JStr "hello"))
       (sample_config None) (sample_options false both_tools) "hi"
       empty_world).1 in
  let second :=
    (Part007.createAgent broken_backend (fun _ => twice "echo" (JStr "hello"))
       (sample_config None) (sample_options false both_tools) "hi"
       empty_world).1 in
  (traced first = traced empty_world /\ console first = console empty_world)
  /\ (traced second = traced empty_world
      /\ console second = console empty_world).
Proof.
  apply (agent_without_sink_is_silent broken_backend
           (fun _ => twice "echo" (JStr "hello")) (sample_config None)
           (sample_options false both_tools) "hi" empty_world).
  - reflexivity.
  - reflexivity.
Defined.

(** X8: without a sink the second agent never fills its cache, so in the
    unstructured mode every tool call of the result is reported with
    [toolResults] undefined: the response holds the text and, for each
    call, the tool name and the arguments only. *)
Theorem second_agent_without_sink_reports_no_results
    backend gen config options userPrompt w result :
  trace config = None -> langfuse config = false ->
  requireStructuredOutput options = false ->
  (Part007.generated backend gen config options userPrompt w).2 = Return result ->
  (Part007.createAgent backend gen config options userPrompt w).2
  = Return
      (UnstructuredResponse
         [ {| msg_role := "assistant";
              msg_content :=
                TextContent (text result)
                  :: map (fun c => ToolCallContent (toolName c) (args c) JUndefined)
                       (toolCalls result) |} ]
         None).
Proof.
  intros Ht Hl Hs.
  pose proof (no_sink_start_007 backend config userPrompt w Ht Hl) as Hstart.
  unfold Part007.generated, Part007.createAgent.
  rewrite !(bind_run _ _ _ _ _ Hstart).
  destruct (Part007.generate backend gen config options userPrompt None
              (set_cache ∅ w)) as [w2 g] eqn:Hg.
  cbn [snd]. intros ->. unfold try_finally, try_catch.
  rewrite (bind_run _ _ _ _ _ Hg).
  assert (toolResultCache w2 = ∅) as Hc.
  { unfold Part007.generate in Hg.
    pose proof (plain_run_frame backend (tools options)
                  (gen (Part007.request config options userPrompt None))
                  (set_cache ∅ w)) as (_ & _ & Hk).
    by rewrite Hg in Hk. }
  unfold Part007.finish.
  assert (has_trace None = false) as -> by done. cbn [when].
  rewrite !(bind_run _ _ _ w2 tt (eq_refl _)).
  unfold ret at 1.
  rewrite no_sink_flush by done.
  cbn [snd]. unfold Part007.format_response. rewrite Hs, Hc. f_equal.
Qed.

Lemma second_agent_without_sink_reports_no_results_witness :
  (Part007.createAgent quiet_backend (fun _ => once "echo" (JStr "hello"))
     (sample_config None) (sample_options false both_tools) "hi" empty_world).2
  = Return
      (UnstructuredResponse
         [ {| msg_role := "assistant";
              msg_content :=
                TextContent (text hello_result)
                  :: map (fun c => ToolCallContent (toolName c) (args c) JUndefined)
                       (toolCalls hello_result) |} ]
         None).
Proof.
  apply (second_agent_without_sink_reports_no_results quiet_backend
           (fun _ => once "echo" (JStr "hello")) (sample_config None)
           (sample_options false both_tools) "hi" empty_world hello_result).
  - reflexivity.
  - reflexivity.
  - reflexivity.
  - reflexivity.
Defined.




(** ** The cache during a run *)

Lemma wrapped_step backend n tool trace a w :
  let w' := (wrapToolWithTracing backend n tool trace a w).1 in
  (invoked w' = invoked w /\ toolResultCache w' = toolResultCache w)
  \/ (toolResultCache w !! cacheKey n a = None
      /\ invoked w' = invoked w ++ [ {| inv_tool := n; inv_args := a |} ]
      /\ (toolResultCache w' = toolResultCache w
          \/ exists v, toolResultCache w' = <[cacheKey n a := v]> (toolResultCache w)
                       /\ execute tool (invoked w) a = Return v)).
Proof.
  cbn zeta. unfold wrapToolWithTracing.
  destruct (toolResultCache w !! cacheKey n a) as [ v | ] eqn:Hc; [ by left | ].
  destruct trace as [ client | ]; [ | by left ].
  run_wrapped.
  destruct (throws backend (traced w) _); cbn; [ by left | ].
  right. split; [ done | ].
  destruct (execute tool (invoked w) a) as [ v | e ] eqn:He; cbn;
    split_throws; split; try done; try (by left); right; by exists v.
Qed.

Lemma find_tool_wrapped_inv backend entries client n f :
  find_tool n (wrappedTools backend (Some entries) (Some client)) = Some f ->
  exists tool,
    find_entry n entries = Some tool
    /\ f = wrapToolWithTracing backend n tool (Some client).
Proof.
  rewrite find_tool_wrapped. destruct (find_entry n entries) as [ tool | ];
    [ | done ].
  intros [= <-]. by exists tool.
Qed.



Lemma cache_sound_preserved backend entries client e : forall w,
  cache_sound entries w ->
  cache_sound entries
    (run_engine (wrappedTools backend (Some entries) (Some client)) e w).1.
Proof.
  induction e as [ result | err | n a next IH ]; intros w Hinv;
    cbn [run_engine]; [ done | done | ].
  destruct (find_tool n _) as [ f | ] eqn:F; [ | by apply IH ].
  apply find_tool_wrapped_inv in F as (tool & Hfind & ->).
  pose proof (wrapped_step backend n tool (Some client) a w) as Hstep.
  destruct (wrapToolWithTracing backend n tool (Some client) a w)
    as [w1 outcome].
  cbn [fst] in Hstep. apply IH.
  destruct Hstep as [[I C] | (Hmiss & I & C)]; intros k v.
  - rewrite I, C. apply Hinv.
  - rewrite I.
    assert (toolResultCache w !! k = Some v ->
            exists n0 a0 tool0 before,
              k = cacheKey n0 a0 /\ find_entry n0 entries = Some tool0
              /\ (before ++ [ {| inv_tool := n0; inv_args := a0 |} ])
                   `prefix_of` (invoked w ++ [ {| inv_tool := n; inv_args := a |} ])
              /\ execute tool0 before a0 = Return v) as Hold.
    { intros Hk.
      destruct (Hinv k v Hk) as (n0 & a0 & tool0 & before & ? & ? & Hp & ?).
      exists n0, a0, tool0, before. repeat split; try done.
      by apply prefix_app_r. }
    destruct C as [-> | (v' & -> & Hexec)]; [ done | ].
    destruct (decide (k = cacheKey n a)) as [-> | Hne].
    + rewrite lookup_insert_eq. intros [= <-].
      by exists n, a, tool, (invoked w).
    + by rewrite lookup_insert_ne.
Qed.

(** X11: in a run that starts from an empty cache, as every agent call
    does, every value the cache comes to hold is what the configured
    tool's own [execute] returned on a call with those arguments that
    the run made: the cache never holds a result of a failed call or a
    value that no tool produced. *)
Theorem cached_values_are_tool_results backend entries client e w :
  toolResultCache w = ∅ ->
  cache_sound entries
    (run_engine (wrappedTools backend (Some entries) (Some client)) e w).1.
Proof.
  intros Hempty. apply cache_sound_preserved.
  intros k v. by rewrite Hempty, lookup_empty.
Qed.

Lemma cached_values_are_tool_results_witness :
  cache_sound both_tools
    (run_engine (wrappedTools quiet_backend (Some both_tools) (Some client))
       (CallTool "unreliable" should_fail (fun _ => once "echo" (JStr "hello")))
       empty_world).1.
Proof.
  apply (cached_values_are_tool_results quiet_backend both_tools client
           (CallTool "unreliable" should_fail
              (fun _ => once "echo" (JStr "hello")))
           empty_world).
  reflexivity.
Defined.

(** ** createStreamingAgent *)



(** X13: with a Langfuse client whose [trace] throws, the streaming
    agent throws that error before anything else happens: the messages
    are not converted, [streamText] is not called, nothing is logged and
    the client is not flushed. *)
Theorem streaming_agent_stops_when_trace_throws {R} backend
    convertToCoreMessages (streamText : StreamTextRequest -> M World R)
    config messages w e :
  sa_langfuse config = true ->
  throws backend (traced w) (CallTrace "streaming-agent") = Some e ->
  createStreamingAgent backend convertToCoreMessages streamText config
    messages w
  = (add_traced (CallTrace "streaming-agent") w, Throw e).
Proof.
  intros Hl Ht. unfold createStreamingAgent. rewrite Hl. cbn [when].
  apply bind_throw. unfold backend_call. cbn. by rewrite Ht.
Qed.

Lemma streaming_agent_stops_when_trace_throws_witness :
  createStreamingAgent broken_backend Return sample_streamText
    (sample_streaming_config true) [user_message "Write a post" "1"]
    empty_world
  = (add_traced (CallTrace "streaming-agent") empty_world,
     Throw "backend unavailable").
Proof.
  apply (streaming_agent_stops_when_trace_throws broken_backend Return
           sample_streamText (sample_streaming_config true)
           [user_message "Write a post" "1"] empty_world "backend unavailable").
  - reflexivity.
  - reflexivity.
Defined.

(** X14: with a Langfuse client whose [flushAsync] throws, the streaming
    agent throws the error of the flush whatever [streamText] did: a
    stream that was produced is lost, and an error of [streamText] is
    replaced. *)
Theorem streaming_agent_flush_error_wins {R} backend convertToCoreMessages
    (streamText : StreamTextRequest -> M World R) config messages w e :
  sa_langfuse config = true ->
  throws backend (traced w) (CallTrace "streaming-agent") = None ->
  (forall h, throws backend h CallLangfuseFlush = Some e) ->
  (createStreamingAgent backend convertToCoreMessages streamText config
     messages w).2
  = Throw e.
Proof.
  intros Hl Ht Hf. unfold createStreamingAgent. rewrite Hl. cbn [when].
  erewrite bind_run; [ | unfold backend_call; cbn; by rewrite Ht ].
  unfold try_finally, try_catch.
  destruct (stream_attempt _ _ _ _ _) as [w1 [r | err]]; cbn;
    unfold backend_call; cbn; by rewrite Hf.
Qed.

Lemma streaming_agent_flush_error_wins_witness :
  (createStreamingAgent flush_failing_backend Return sample_streamText
     (sample_streaming_config true) [user_message "Write a post" "1"]
     empty_world).2
  = Throw "flush failed".
Proof.
  apply (streaming_agent_flush_error_wins flush_failing_backend Return
           sample_streamText (sample_streaming_config true)
           [user_message "Write a post" "1"] empty_world "flush failed").
  - reflexivity.
  - reflexivity.
  - reflexivity.
Defined.

(** ** The wrapped tools of the data-stream agent *)

(** X15: the wrapped [execute] of the data-stream agent returns a value
    exactly when the stream takes the tool-start event, the tool's own
    [execute] returns that value, and the stream takes the tool-end
    event carrying it; there is no other way for it to return. *)
Theorem streamed_execute_returns_iff stream logger toolName tool args w v :
  (streamed_execute stream logger toolName tool args w).2 = Return v
  <-> rejects stream (written w) (ToolStartEvent toolName args) = None
      /\ execute tool (executed w) args = Return v
      /\ rejects stream (written w ++ [ToolStartEvent toolName args])
           (ToolEndEvent toolName v) = None.
Proof.
  unfold streamed_execute, try_catch, bind, writeData, log_line, run_tool,
    throw, ret.
  destruct logger; cbn;
  (destruct (rejects stream (written w) _) as [ e | ]; cbn;
   [ split; [ done | by intros (? & _) ] | ]);
  (destruct (execute tool (executed w) args) as [ v' | e ]; cbn;
   [ | split; [ done | by intros (_ & ? & _) ] ]);
  (destruct (rejects stream (written w ++ _) (ToolEndEvent toolName v'))
     as [ e | ] eqn:He; cbn;
   [ split; [ done | intros (_ & [= ->] & H); congruence ]
   | split; [ by intros [= ->] | by intros (_ & [= ->] & _) ] ]).
Qed.

(** X16: when the stream takes the tool-start event and the tool's own
    [execute] throws, the wrapped [execute] of the data-stream agent
    throws the same error; the tool was run once and no tool-end event
    was written. *)
Theorem streamed_execute_propagates_tool_error
    stream logger toolName tool args w e :
  rejects stream (written w) (ToolStartEvent toolName args) = None ->
  execute tool (executed w) args = Throw e ->
  let run := streamed_execute stream logger toolName tool args w in
  run.2 = Throw e
  /\ written run.1 = written w ++ [ToolStartEvent toolName args]
  /\ executed run.1
     = executed w ++ [ {| inv_tool := toolName; inv_args := args |} ].
Proof.
  intros Hs He. cbn zeta.
  unfold streamed_execute, try_catch, bind, writeData, log_line, run_tool,
    throw, ret.
  destruct logger; cbn; rewrite Hs; cbn; by rewrite He.
Qed.

Lemma streamed_execute_propagates_tool_error_witness :
  let run :=
    streamed_execute open_stream true "unreliable" unreliable_tool should_fail
      empty_stream_world in
  run.2 = Throw "Tool failed as requested"
  /\ written run.1
     = written empty_stream_world ++ [ToolStartEvent "unreliable" should_fail]
  /\ executed run.1
     = executed empty_stream_world
         ++ [ {| inv_tool := "unreliable"; inv_args := should_fail |} ].
Proof.
  apply (streamed_execute_propagates_tool_error open_stream true "unreliable"
           unreliable_tool should_fail empty_stream_world
           "Tool failed as requested").
  - reflexivity.
  - reflexivity.
Defined.

(** ** wrapTool and the tools of the content pipeline *)

(** X17: a tool built by [wrapTool] returns or throws exactly what the
    configured [execute] does on the same arguments, and runs it once;
    all it adds is console output, a start line always and a completion
    line only when [execute] returned. *)
Theorem wrapTool_is_transparent toolName config args w :
  let run := wrapTool toolName config args w in
  run.2 = execute config (invoked w) args
  /\ invoked run.1
     = invoked w ++ [ {| inv_tool := toolName; inv_args := args |} ]
  /\ console run.1
     = console w
         ++ ("Tool Execution Started: " +:+ description config)
         :: match execute config (invoked w) args with
            | Return _ => ["Tool Execution Completed: " +:+ description config]
            | Throw _ => []
            end.
Proof.
  cbn zeta. unfold wrapTool, bind, console_error, tool_execute, modify_world,
    ret. cbn.
  destruct (execute config (invoked w) args); cbn; repeat split;
    by rewrite <- ?app_assoc.
Qed.

(** X18: called with a string as [userInput], [routerTool] returns, and
    the route it returns is one the orchestrator handles: its action is
    one of create_strategy, manage_content and create_content, with
    platform twitter for a strategy, blog for management and linkedin,
    twitter or blog for content; the orchestrator selects this route as
    it is and never replaces it by the default. *)
Theorem routerTool_routes_are_handled toLowerCase args userInput w :
  opt_get args "userInput" = JStr userInput ->
  exists route,
    (routerTool toLowerCase args w).2 = Return route
    /\ select_route (tool_result route) = route
    /\ (opt_get route "action", opt_get route "platform")
       ∈ [ (JStr "create_strategy", JStr "twitter");
           (JStr "manage_content", JStr "blog");
           (JStr "create_content", JStr "linkedin");
           (JStr "create_content", JStr "twitter");
           (JStr "create_content", JStr "blog") ].
Proof.
  intros Hinput. exists (routerTool_route toLowerCase userInput). split.
  { unfold routerTool, wrapTool, bind, console_error, tool_execute,
      modify_world, ret. cbn. by rewrite Hinput. }
  unfold routerTool_route.
  destruct (includes _ "strategy").
  { split; [ done | ]. apply list_elem_of_here. }
  destruct (includes _ "update" || includes _ "manage").
  { split; [ done | ]. apply list_elem_of_further, list_elem_of_here. }
  destruct (includes _ "linkedin").
  { split; [ done | ]. do 2 apply list_elem_of_further. apply list_elem_of_here. }
  destruct (includes _ "twitter").
  { split; [ done | ]. do 3 apply list_elem_of_further. apply list_elem_of_here. }
  split; [ done | ]. do 4 apply list_elem_of_further. apply list_elem_of_here.
Qed.

Lemma routerTool_routes_are_handled_witness :
  exists route,
    (routerTool lower_ascii
       (JObj [("userInput", JStr "Update our LinkedIn strategy")])
       empty_world).2
    = Return route
    /\ select_route (tool_result route) = route
    /\ (opt_get route "action", opt_get route "platform")
       ∈ [ (JStr "create_strategy", JStr "twitter");
           (JStr "manage_content", JStr "blog");
           (JStr "create_content", JStr "linkedin");
           (JStr "create_content", JStr "twitter");
           (JStr "create_content", JStr "blog") ].
Proof.
  apply (routerTool_routes_are_handled lower_ascii
           (JObj [("userInput", JStr "Update our LinkedIn strategy")])
           "Update our LinkedIn strategy" empty_world).
  reflexivity.
Defined.

Lemma split_on_length sep s :
  length (split_on sep s) = S (occurrences sep s).
Proof.
  induction s as [ | c s IH ]; [ done | ]. cbn [split_on occurrences].
  destruct (Ascii.eqb c sep); cbn [length]; [ by rewrite IH | ].
  destruct (split_on sep s); [ done | ]. cbn in IH |- *. done.
Qed.

Lemma split_on_join sep s :
  String.concat (String sep EmptyString) (split_on sep s) = s.
Proof.
  induction s as [ | c s IH ]; [ done | ]. cbn [split_on].
  destruct (Ascii.eqb_spec c sep) as [ -> | Hne ].
  - pose proof (split_on_length sep s) as Hl.
    destruct (split_on sep s) as [ | piece pieces ]; [ done | ].
    cbn [String.concat] in IH |- *. cbn. by rewrite IH.
  - pose proof (split_on_length sep s) as Hl.
    destruct (split_on sep s) as [ | piece pieces ]; [ done | ].
    destruct pieces as [ | p ps ]; cbn [String.concat] in IH |- *.
    + by rewrite IH.
    + cbn. by rewrite <- IH.
Qed.

(** X19: the [wordCount] that [formatterTool] reports is the number of
    spaces in the content plus one, so it is 1 for an empty content and
    counts the gaps of repeated spaces as words; [readingTime] is that
    count divided by 200 and rounded up, hence at least 1; the keywords
    are the first five of the pieces between spaces, and joining all the
    pieces with spaces gives the content back. *)
Theorem formatterTool_counts_spaces toUpperCase content platform tone :
  let metadata :=
    opt_get (formatterTool toUpperCase content platform tone) "metadata" in
  let seo := opt_get (formatterTool toUpperCase content platform tone) "seo" in
  let words := split_on " " content in
  exists readingTime : Z,
    opt_get metadata "wordCount"
    = JNum (Z.of_nat (occurrences " " content) + 1)
    /\ opt_get metadata "readingTime" = JNum readingTime
    /\ (1 <= readingTime)%Z
    /\ (200 * (readingTime - 1) < Z.of_nat (occurrences " " content) + 1
        <= 200 * readingTime)%Z
    /\ opt_get seo "keywords" = JArr (JStr <$> take 5 words)
    /\ String.concat " " words = content.
Proof.
  cbn zeta. eexists.
  cbn [formatterTool opt_get obj_get String.eqb Ascii.eqb Bool.eqb].
  rewrite split_on_length.
  split; [ f_equal; lia | ]. split; [ reflexivity | ].
  unfold ceil_div.
  set (n := occurrences " " content).
  assert (Z.of_nat (S n) = Z.of_nat n + 1)%Z as -> by lia.
  pose proof (Z.div_mod (Z.of_nat n + 1 + 200 - 1) 200 ltac:(lia)) as Hd.
  pose proof (Z.mod_pos_bound (Z.of_nat n + 1 + 200 - 1) 200 ltac:(lia)) as Hm.
  repeat split; try lia.
  apply split_on_join.
Qed.

(** ** formatResponse on what the first agent returns *)

(** X20: [formatResponse] shows nothing of a structured response: for
    every call of the first agent with [requireStructuredOutput] that
    returns, it yields the text No text content in response, whatever
    the structured output and the tool calls were. *)
Theorem formatResponse_hides_structured_output
    pretty backend gen config options userPrompt w response :
  requireStructuredOutput options = true ->
  (Part006.createAgent backend gen config options userPrompt w).2
  = Return response ->
  formatResponse pretty response = "No text content in response".
Proof.
  intros Hs. rewrite createAgent_006_generated.
  destruct ((Part006.generated backend gen config options userPrompt w).2)
    as [ result | e ]; [ | done ].
  intros [= <-]. unfold Part006.format_response. by rewrite Hs.
Qed.

Lemma formatResponse_hides_structured_output_witness :
  formatResponse js_to_string
    (StructuredResponse (toolCalls hello_result) (JStr (text hello_result)))
  = "No text content in response".
Proof.
  apply (formatResponse_hides_structured_output js_to_string quiet_backend
           (fun _ => once "echo" (JStr "hello")) (sample_config None)
           (sample_options true both_tools) "hi" empty_world
           (StructuredResponse (toolCalls hello_result)
              (JStr (text hello_result)))).
  - reflexivity.
  - reflexivity.
Defined.

(** X21: in the unstructured mode the lines [formatResponse] puts out
    for a response of the first agent are the text of the result, when
    it is not empty, followed by one line per tool call whose arguments
    are truthy, and that line shows the arguments of the call under the
    label Tool Results: what the tools returned does not appear. *)
Theorem formatResponse_labels_arguments_as_results
    pretty backend gen config options userPrompt w result :
  requireStructuredOutput options = false ->
  (Part006.generated backend gen config options userPrompt w).2 = Return result ->
  exists response,
    (Part006.createAgent backend gen config options userPrompt w).2
    = Return response
    /\ response_lines pretty response
       = (if String.eqb (text result) "" then [] else [text result])
           ++ flat_map (fun c => if truthy (args c)
                                 then ["Tool Results: " +:+ pretty (args c)]
                                 else [])
                (toolCalls result).
Proof.
  intros Hs Hg. rewrite createAgent_006_generated, Hg.
  eexists. split; [ reflexivity | ].
  unfold Part006.format_response. rewrite Hs.
  unfold response_lines.
  cbn [flat_map msg_role msg_content String.eqb Ascii.eqb Bool.eqb].
  rewrite app_nil_r. cbn [flat_map content_lines]. f_equal.
  induction (toolCalls result) as [ | c l IH ]; [ done | ].
  cbn [map flat_map content_lines]. by rewrite IH.
Qed.

Lemma formatResponse_labels_arguments_as_results_witness :
  exists response,
    (Part006.createAgent quiet_backend (fun _ => once "echo" (JStr "hello"))
       (sample_config None) (sample_options false both_tools) "hi"
       empty_world).2
    = Return response
    /\ response_lines js_to_string response
       = (if String.eqb (text hello_result) "" then [] else [text hello_result])
           ++ flat_map (fun c => if truthy (args c)
                                 then ["Tool Results: " +:+ js_to_string (args c)]
                                 else [])
                (toolCalls hello_result).
Proof.
  apply (formatResponse_labels_arguments_as_results js_to_string quiet_backend
           (fun _ => once "echo" (JStr "hello")) (sample_config None)
           (sample_options false both_tools) "hi" empty_world hello_result).
  - reflexivity.
  - reflexivity.
Defined.

(** ** The orchestrator, stage by stage *)

Lemma run_stage_cases stage agent input trail :
  (exists v,
     run_stage stage agent input trail = (trail ++ [(stage, input)], Return v)
     /\ stage_yields agent input v)
  \/ (exists e,
        run_stage stage agent input trail = (trail ++ [(stage, input)], Throw e)
        /\ stage_throws agent input e).
Proof.
  unfold run_stage, bind, stage_throws, stage_yields.
  destruct (agent input) as [streamed | e] eqn:Ha; [ | right; by exists e ].
  destruct (textStreamError streamed) as [e | ] eqn:He; [ right; by exists e | ].
  destruct (toolResults streamed) as [v | e] eqn:Hr.
  - left. exists v. split; [ done | ]. by exists streamed.
  - right. by exists e.
Qed.

Ltac stage_step H :=
  match goal with
  | |- context [bind (run_stage ?s ?ag ?inp) ?k ?tr] =>
      let v := fresh "v" in
      let e := fresh "e" in
      let Hrun := fresh "Hrun" in
      destruct (run_stage_cases s ag inp tr) as [(v & Hrun & H) | (e & Hrun & H)];
      [ rewrite (bind_run _ _ _ _ _ Hrun) | rewrite (bind_throw _ _ _ _ _ Hrun) ]
  end.

Ltac close_profile :=
  cbn [fst snd ret]; rewrite <- ?app_assoc; cbn [app];
  eexists; split; [ reflexivity | ].

(** What a call of the orchestrator leaves behind, in full. *)
Lemma orchestrate_profile agents userInput trail :
  let run := orchestrateAgents agents userInput trail in
  exists added,
    run.1 = trail ++ added
    /\ Forall one_user_message added
    /\ match run.2 with
       | Return final =>
           Forall (delivered agents) added
           /\ (fst <$> added = [Router] \/ fst <$> added = pipeline
               \/ fst <$> added = [Router; Strategy])
       | Throw e =>
           exists before c,
             added = before ++ [c]
             /\ Forall (delivered agents) before
             /\ stage_throws (stage_agent agents c.1) c.2 e
             /\ ((fst <$> added) `prefix_of` pipeline
                 \/ fst <$> added = [Router; Strategy])
       end.
Proof.
  cbn zeta. unfold orchestrateAgents.
  stage_step H1.
  2:{ close_profile. split; [ repeat constructor; by eexists _, _ | ].
      exists [], (Router, [user_message userInput "1"]).
      repeat split; [ constructor | done | ].
      left. by exists [Research; Strategy; Formatter; Publisher]. }
  set (route := select_route v).
  rewrite (bind_run _ _ _ _ _ (member_truthy route "action" _
                                  (select_route_truthy v))).
  rewrite (bind_run _ _ _ _ _ (member_truthy route "platform" _
                                  (select_route_truthy v))).
  assert (delivered agents (Router, [user_message userInput "1"])) as D1
    by (by exists v).
  destruct (is_str (opt_get route "action") "create_content").
  { unfold create_content.
    stage_step H2.
    2:{ close_profile. split; [ repeat constructor; by eexists _, _ | ].
        eexists [_], (_, _). repeat split; [ by repeat constructor | done | ].
        left. by exists [Strategy; Formatter; Publisher]. }
    rewrite (bind_run _ _ _ _ _ (member_truthy route "platform" _
                                    (select_route_truthy v))).
    stage_step H3.
    2:{ close_profile. split; [ repeat constructor; by eexists _, _ | ].
        eexists [_; _], (_, _).
        repeat split;
          [ repeat constructor; [ done | by eexists ] | done | ].
        left. by exists [Formatter; Publisher]. }
    stage_step H4.
    2:{ close_profile. split; [ repeat constructor; by eexists _, _ | ].
        eexists [_; _; _], (_, _).
        repeat split;
          [ repeat constructor; [ done | by eexists | by eexists ] | done | ].
        left. by exists [Publisher]. }
    stage_step H5.
    2:{ close_profile. split; [ repeat constructor; by eexists _, _ | ].
        eexists [_; _; _; _], (_, _).
        repeat split;
          [ repeat constructor; [ done | by eexists | by eexists | by eexists ]
          | done | ].
        left. by exists []. }
    close_profile. split; [ repeat constructor; by eexists _, _ | ].
    split; [ | by right; left ].
    repeat constructor;
      [ done | by eexists | by eexists | by eexists | by eexists ]. }
  destruct (is_str (opt_get route "action") "create_strategy").
  { unfold create_strategy.
    rewrite (bind_run _ _ _ _ _ (member_truthy route "platform" _
                                    (select_route_truthy v))).
    stage_step H2.
    2:{ close_profile. split; [ repeat constructor; by eexists _, _ | ].
        eexists [_], (_, _). repeat split; [ by repeat constructor | done | ].
        by right. }
    close_profile. split; [ repeat constructor; by eexists _, _ | ].
    split; [ | by right; right ].
    repeat constructor; [ done | by eexists ]. }
  destruct (is_str (opt_get route "action") "manage_content");
    close_profile; (split; [ repeat constructor; by eexists _, _ | ]);
    (split; [ by repeat constructor | by left ]).
Qed.

(** X22: whatever the stage agents do, a call of the orchestrator calls
    the router first and then either nothing, or the strategy stage
    alone, or research, strategy, formatter and publisher in this order
    up to the first that fails: no stage is called twice or out of
    order, and each is given exactly one message, of role user. *)
Theorem orchestrator_stage_order agents userInput trail :
  exists added,
    (orchestrateAgents agents userInput trail).1 = trail ++ added
    /\ ((fst <$> added) `prefix_of` pipeline
        \/ fst <$> added = [Router; Strategy])
    /\ head (fst <$> added) = Some Router
    /\ Forall one_user_message added.
Proof.
  destruct (orchestrate_profile agents userInput trail)
    as (added & Htrail & Hmsg & Hout).
  exists added. split; [ done | ].
  destruct ((orchestrateAgents agents userInput trail).2) as [final | e].
  - destruct Hout as (_ & [H | [H | H]]); rewrite H; repeat split; try done.
    + left. by exists [Research; Strategy; Formatter; Publisher].
    + by left.
    + by right.
  - destruct Hout as (before & c & -> & _ & _ & Hshape).
    repeat split; try done.
    destruct Hshape as [[k Hk] | Hk].
    + destruct before as [ | b before ]; cbn in Hk |- *.
      * by injection Hk as -> _.
      * by injection Hk as -> _.
    + destruct before as [ | b before ]; cbn in Hk |- *.
      * done.
      * by injection Hk as -> _.
Qed.

(** X23: the orchestrator adds no error of its own and hides none: when
    it throws, the error is the one with which the stage it called last
    failed (the agent call, its text stream or its tool results), every
    stage before that delivered, and no stage is called after the
    failure; when it returns, every stage it called delivered. *)
Theorem orchestrator_errors_come_from_stages agents userInput trail :
  let run := orchestrateAgents agents userInput trail in
  exists added,
    run.1 = trail ++ added
    /\ match run.2 with
       | Return _ => Forall (delivered agents) added
       | Throw e =>
           exists before stage input,
             added = before ++ [(stage, input)]
             /\ Forall (delivered agents) before
             /\ stage_throws (stage_agent agents stage) input e
       end.
Proof.
  cbn zeta.
  destruct (orchestrate_profile agents userInput trail)
    as (added & Htrail & _ & Hout).
  exists added. split; [ done | ].
  destruct ((orchestrateAgents agents userInput trail).2) as [final | e].
  - by destruct Hout.
  - destruct Hout as (before & [stage input] & -> & Hd & Ht & _).
    by exists before, stage, input.
Qed.



(** X25: on the create_strategy path the orchestrator calls the
    strategy stage alone, with a message built from the platform of the
    route and not from the user's input, and returns the route's action
    and platform with the first tool result of that stage as strategy;
    references, formattedContent and publishedContent stay absent. *)
Theorem create_strategy_path agents userInput trail results strategy_results :
  stage_yields (routerAgent agents) [user_message userInput "1"] results ->
  let route := select_route results in
  opt_get route "action" = JStr "create_strategy" ->
  let strategy_input :=
    [user_message
       ("Create a content strategy for "
          +:+ js_to_string (opt_get route "platform")) "6"] in
  stage_yields (strategyAgent agents) strategy_input strategy_results ->
  orchestrateAgents agents userInput trail
  = (trail ++ [ (Router, [user_message userInput "1"]);
                (Strategy, strategy_input) ],
     Return {| action := JStr "create_strategy";
               platform := opt_get route "platform";
               references := None;
               strategy := Some (first_result strategy_results);
               formattedContent := None;
               publishedContent := None |}).
Proof.
  intros Hr route Hact si H1.
  rewrite (orchestrate_routed agents _ _ _ Hr). cbn zeta. fold route.
  rewrite Hact. cbn [is_str String.eqb Ascii.eqb Bool.eqb].
  unfold create_strategy.
  rewrite (bind_run _ _ _ _ _ (member_truthy route "platform" _
                                  (select_route_truthy results))).
  rewrite (bind_run _ _ _ _ _ (run_stage_yields _ _ _ _ _ H1)).
  unfold ret. cbn [action platform references formattedContent publishedContent].
  by rewrite <- !app_assoc.
Qed.

Lemma create_strategy_path_witness :
  let route := select_route (tool_result strategy_route) in
  let strategy_input :=
    [user_message
       ("Create a content strategy for "
          +:+ js_to_string (opt_get route "platform")) "6"] in
  orchestrateAgents
    (sample_agents (tool_result strategy_route)
       (tool_result (JObj [("tone", JStr "casual")])))
    "Plan our strategy" []
  = ([] ++ [ (Router, [user_message "Plan our strategy" "1"]);
             (Strategy, strategy_input) ],
     Return {| action := JStr "create_strategy";
               platform := opt_get route "platform";
               references := None;
               strategy :=
                 Some (first_result
                         (tool_result (JObj [("tone", JStr "casual")])));
               formattedContent := None;
               publishedContent := None |}).
Proof.
  apply (create_strategy_path
           (sample_agents (tool_result strategy_route)
              (tool_result (JObj [("tone", JStr "casual")])))
           "Plan our strategy" [] (tool_result strategy_route)
           (tool_result (JObj [("tone", JStr "casual")]))).
  - apply stage_returning_yields.
  - reflexivity.
  - apply stage_returning_yields.
Defined.

(** X26: on the manage_content path the orchestrator calls no stage
    after the router and returns the route's action and platform with
    the fixed message that the workflow is not implemented yet as
    strategy. *)
Theorem manage_content_path agents userInput trail results :
  stage_yields (routerAgent agents) [user_message userInput "1"] results ->
  let route := select_route results in
  opt_get route "action" = JStr "manage_content" ->
  orchestrateAgents agents userInput trail
  = (trail ++ [ (Router, [user_message userInput "1"]) ],
     Return {| action := JStr "manage_content";
               platform := opt_get route "platform";
               references := None;
               strategy :=
                 Some (JObj [("message",
                              JStr "Content management workflow not implemented yet")]);
               formattedContent := None;
               publishedContent := None |}).
Proof.
  intros Hr route Hact.
  rewrite (orchestrate_routed agents _ _ _ Hr). cbn zeta. fold route.
  by rewrite Hact.
Qed.

Lemma manage_content_path_witness :
  let route := select_route (tool_result manage_route) in
  orchestrateAgents
    (sample_agents (tool_result manage_route) (JArr [])) "Update the post" []
  = ([] ++ [ (Router, [user_message "Update the post" "1"]) ],
     Return {| action := JStr "manage_content";
               platform := opt_get route "platform";
               references := None;
               strategy :=
                 Some (JObj [("message",
                              JStr "Content management workflow not implemented yet")]);
               formattedContent := None;
               publishedContent := None |}).
Proof.
  apply (manage_content_path
           (sample_agents (tool_result manage_route) (JArr []))
           "Update the post" [] (tool_result manage_route)).
  - apply stage_returning_yields.
  - reflexivity.
Defined.

(** X27: a formatter stage that delivers no usable first tool result
    does not stop the content pipeline: the publisher stage is still
    called, with a message whose JSON holds the platform alone, the
    content and metadata being undefined and hence left out. *)
Theorem publisher_runs_without_formatted_content
    agents userInput trail results research strategy_results formatted :
  stage_yields (routerAgent agents) [user_message userInput "1"] results ->
  let route := select_route results in
  opt_get route "action" = JStr "create_content" ->
  stage_yields (researchAgent agents)
    [user_message ("Research this topic: " +:+ userInput) "2"] research ->
  stage_yields (strategyAgent agents)
    [user_message
       ("Create a strategy for " +:+ js_to_string (opt_get route "platform")
          +:+ " about: " +:+ userInput) "3"] strategy_results ->
  stage_yields (formatterAgent agents)
    (formatter_input userInput (opt_get route "platform")
       (first_result strategy_results)) formatted ->
  truthy (first_result formatted) = false ->
  (Publisher,
   [user_message
      (JSON_stringify_object [("platform", opt_get route "platform")]) "5"])
  ∈ (orchestrateAgents agents userInput trail).1.
Proof.
  intros Hr route Hact H1 H2 H3 Hnone.
  rewrite (orchestrate_routed agents _ _ _ Hr). cbn zeta. fold route.
  rewrite Hact. cbn [is_str String.eqb Ascii.eqb Bool.eqb].
  unfold create_content.
  rewrite (bind_run _ _ _ _ _ (run_stage_yields _ _ _ _ _ H1)).
  rewrite (bind_run _ _ _ _ _ (member_truthy route "platform" _
                                  (select_route_truthy results))).
  rewrite (bind_run _ _ _ _ _ (run_stage_yields _ _ _ _ _ H2)).
  rewrite (bind_run _ _ _ _ _ (run_stage_yields _ _ _ _ _ H3)).
  assert (publisher_input (opt_get route "platform") (first_result formatted)
          = [user_message
               (JSON_stringify_object [("platform", opt_get route "platform")])
               "5"]) as ->.
  { unfold publisher_input.
    assert (forall k, opt_get (first_result formatted) k = JUndefined) as Hk.
    { intros k. destruct (first_result formatted); try done. }
    by rewrite !Hk. }
  match goal with
  | |- _ ∈ (bind (run_stage Publisher ?ag ?inp) ?k ?tr).1 =>
      pose proof (run_stage_trail Publisher ag inp tr) as Ht;
      destruct (run_stage Publisher ag inp tr) as [tr5 [v4 | e4]] eqn:E4
  end; cbn [fst] in Ht.
  - rewrite (bind_run _ _ _ _ _ E4). cbn [ret fst]. rewrite Ht.
    rewrite !elem_of_app. right. apply list_elem_of_here.
  - rewrite (bind_throw _ _ _ _ _ E4). cbn [fst]. rewrite Ht.
    rewrite !elem_of_app. right. apply list_elem_of_here.
Qed.

Lemma publisher_runs_without_formatted_content_witness :
  let route := select_route (tool_result linkedin_route) in
  (Publisher,
   [user_message
      (JSON_stringify_object [("platform", opt_get route "platform")]) "5"])
  ∈ (orchestrateAgents agents_without_formatted_content "AI trends" []).1.
Proof.
  apply (publisher_runs_without_formatted_content
           agents_without_formatted_content "AI trends" []
           (tool_result linkedin_route) (JArr []) (JArr []) (JArr [])).
  - apply stage_returning_yields.
  - reflexivity.
  - apply stage_returning_yields.
  - apply stage_returning_yields.
  - apply stage_returning_yields.
  - reflexivity.
Defined.
